(** * WILD-ONe data visualization tools: the selection widgets

    A shallow embedding of [toolbox.py] (the selector widgets) and
    [numcases.py] (the number-of-cases applet), and the properties of
    the selection state they maintain.

    Conventions of the embedding:
    - every Python class is a [Module]; its attributes are the fields of a
      record [t], its methods are functions that take the object's state
      and return the new one;
    - a tkinter [Listbox] is the list of its rows, each row being the
      element shown together with its highlight flag;
    - Python's [str] is [string]; [a in b] on strings is [Py.str_in];
      [str.lower] and the globals of [datatools] are section variables. *)

From Stdlib Require Import String Ascii.
From stdpp Require Import base list strings gmap sorting.

(** ** Python built-ins *)

Module Py.

(** [a in b] for two [str]: [a] occurs in [b] as a contiguous run. *)
Fixpoint str_in (a b : string) : bool :=
  String.prefix a b ||
  match b with
  | EmptyString => false
  | String _ b' => str_in a b'
  end.

(** What [str_in] decides: [b] is [a] with something before and after. *)
Definition occurs_in (a b : string) : Prop := ∃ p q, b = p +:+ a +:+ q.

(** [x in xs] for a tuple or list [xs]: some element equals [x]. *)
Definition elem_in `{EqDecision A} (x : A) (xs : list A) : bool :=
  bool_decide (x ∈ xs).

(** [l.sort(reverse=True)] on a list of ints. *)
Definition sort_reverse (l : list nat) : list nat :=
  merge_sort (flip Nat.le) l.

(** [str.lower] restricted to ASCII letters; the instance used to run the
    widgets on concrete inputs. *)
Definition ascii_lower_char (c : ascii) : ascii :=
  let n := nat_of_ascii c in
  if (65 <=? n) && (n <=? 90) then ascii_of_nat (n + 32) else c.

Fixpoint ascii_lower (s : string) : string :=
  match s with
  | EmptyString => EmptyString
  | String c s' => String (ascii_lower_char c) (ascii_lower s')
  end.

End Py.

(** ** The tkinter Listbox *)

Module Listbox.

(** The rows of the widget, top to bottom: the element and whether the
    row is highlighted. An element is read back as it was inserted, and
    the highlight of a row moves with the row when rows above it are
    inserted or deleted. *)
Abbreviation t A := (list (A * bool)).

Section Ops.
Context {A : Type}.

(** [size()] *)
Definition size (lb : t A) : nat := length lb.

(** [get(0, last="end")] *)
Definition get_all (lb : t A) : list A := lb.*1.

(** [get(i)]; Tk answers the empty string when [i] is out of range,
    here [None]. *)
Definition get (i : nat) (lb : t A) : option A := lb.*1 !! i.

(** A fresh row: not highlighted. *)
Definition row (x : A) : A * bool := (x, false).

(** [insert(i, x)]: the new row goes before row [i], or at the end when
    [i] is not less than the size; it is not highlighted, and the rows
    below keep their highlight. *)
Definition insert (i : nat) (x : A) (lb : t A) : t A :=
  take i lb ++ row x :: drop i lb.

(** [delete(i)]: drops row [i]; nothing happens when [i] is out of
    range. *)
Definition delete (i : nat) (lb : t A) : t A := base.delete i lb.

(** [delete(0, "end")] *)
Definition delete_all (lb : t A) : t A := [].

(** The indices of the highlighted rows among [lb], numbered from [i]. *)
Fixpoint highlighted_from (i : nat) (lb : t A) : list nat :=
  match lb with
  | [] => []
  | (_, b) :: lb' =>
      if b then i :: highlighted_from (S i) lb'
      else highlighted_from (S i) lb'
  end.

(** [curselection()]: the indices of the highlighted rows, ascending. *)
Definition curselection (lb : t A) : list nat := highlighted_from 0 lb.

(** The user's gesture on an "extended" list: exactly the rows whose
    index is in [sel] end up highlighted. *)
Definition highlight (sel : list nat) (lb : t A) : t A :=
  imap (λ i r, (r.1, bool_decide (i ∈ sel))) lb.

(** The elements of [l] whose index, counted from [k], is not in [sel],
    in the order of [l]. *)
Fixpoint keep_outside_from (k : nat) (sel : list nat) (l : list A) : list A :=
  match l with
  | [] => []
  | x :: l' =>
      if bool_decide (k ∈ sel) then keep_outside_from (S k) sel l'
      else x :: keep_outside_from (S k) sel l'
  end.

(** The elements of [l] at the indices outside [sel]. *)
Definition keep_outside (sel : list nat) (l : list A) : list A :=
  keep_outside_from 0 sel l.
End Ops.

End Listbox.

(** ** datatools: the condition catalog

    [datatools] provides the class of conditions and the globals
    [condition_list], [condition_dict] and [defaultCondition]; the widgets
    read a condition's [name] and [array] only. The globals are variables
    of the sections below. *)

Record Condition := { name : string; array : list string }.

(** The bound methods handed around as callbacks. *)
Inductive callback :=
| condition_trace   (* VarSelector._condition_trace *)
| filter_trace.     (* VarSelector._filter_trace *)

(** ** ConditionSelect *)

Module ConditionSelect.

Record t := { _stringvar : string; tracefunc : option callback }.

Definition get (w : t) : string := _stringvar w.

Definition set (name : string) (w : t) : t :=
  {| _stringvar := name; tracefunc := tracefunc w |}.

(** Sets the displayed name; the second component is the trace function
    the method then calls, if one is set. *)
Definition update_display (name : string) (w : t) : t * option callback :=
  let w := set name w in
  (w, tracefunc w).

Definition set_tracefunc (f : callback) (w : t) : t :=
  {| _stringvar := _stringvar w; tracefunc := Some f |}.

Section Catalog.
Variable condition_list : list Condition.
Variable condition_dict : gmap string Condition.
Variable defaultCondition : Condition.

(** [condition_dict[name]]; [None] is the KeyError. *)
Definition get_condition (w : t) : option Condition :=
  let name := get w in
  condition_dict !! name.

(** The labels of the menu entries; the command of the entry labelled
    [n] is [update_display n]. *)
Definition menu_labels : list string := name <$> condition_list.

Definition __init__ : t :=
  {| _stringvar := name defaultCondition; tracefunc := None |}.
End Catalog.

End ConditionSelect.

(** ** VarWindow *)

Module VarWindow.

Record t := { condition : Condition; listbox : Listbox.t string }.

Section Methods.
Variable lower : string → string.
Variable defaultCondition : Condition.

Definition build_box (c : Condition) (w : t) : t :=
  let varlist := array c in
  let lb := Listbox.delete_all (listbox w) in
  {| condition := c;
     listbox :=
       foldl (λ lb i,
                match varlist !! i with
                | Some v => Listbox.insert i v lb
                | None => lb
                end)
             lb (seq 0 (length varlist)) |}.

Definition filter (s : string) (w : t) : t :=
  let varlist := array (condition w) in
  let lb := Listbox.delete_all (listbox w) in
  {| condition := condition w;
     listbox :=
       foldl (λ lb var,
                if Py.str_in (lower s) (lower var)
                then Listbox.insert (Listbox.size lb) var lb
                else lb)
             lb varlist |}.

Definition get_selected (w : t) : list string :=
  let index := Listbox.curselection (listbox w) in
  foldl (λ selected i,
           selected ++ [default "" (Listbox.get i (listbox w))])
        [] index.

Definition __init__ : t :=
  build_box defaultCondition {| condition := defaultCondition; listbox := [] |}.

(** What the widget shows, top to bottom. *)
Definition displayed (w : t) : list string := Listbox.get_all (listbox w).
End Methods.

End VarWindow.

(** ** SelectedWindow *)

Module SelectedWindow.

Section Methods.
Context {A : Type} `{EqDecision A}.

Record t := { listbox : Listbox.t A }.

Definition add (varlist : list A) (w : t) : t :=
  let allvars := Listbox.get_all (listbox w) in
  {| listbox :=
       foldl (λ lb var,
                if negb (Py.elem_in var allvars)
                then Listbox.insert (Listbox.size lb) var lb
                else lb)
             (listbox w) varlist |}.

Definition remove (w : t) : t :=
  let index := Py.sort_reverse (Listbox.curselection (listbox w)) in
  {| listbox := foldl (λ lb i, Listbox.delete i lb) (listbox w) index |}.

Definition get_displayed (w : t) : list A := Listbox.get_all (listbox w).

Definition __init__ : t := {| listbox := [] |}.
End Methods.

Arguments t : clear implicits.

End SelectedWindow.

(** ** Filter *)

Module Filter.

(** The text of the entry and the callbacks traced on its writes. *)
Record t := { _filter : string; _traces : list callback }.

Definition get_filter (w : t) : string := _filter w.

Definition add_trace (f : callback) (w : t) : t :=
  {| _filter := _filter w; _traces := _traces w ++ [f] |}.

(** The user edits the entry: the variable is written and every traced
    callback is then called, in the order returned. *)
Definition write (s : string) (w : t) : t * list callback :=
  ({| _filter := s; _traces := _traces w |}, _traces w).

Definition __init__ : t := {| _filter := ""; _traces := [] |}.

End Filter.

(** ** DateEntry *)

Module DateEntry.

Record t := { _from_var : string; _to_var : string }.

Section Methods.
(** pandas' timestamps, and [pd.to_datetime(_, errors="coerce")] with
    [None] for [NaT]. *)
Variable Timestamp : Type.
Variable to_datetime : string → option Timestamp.

Definition get_daterange (w : t) : option Timestamp * option Timestamp :=
  let from_date := to_datetime (_from_var w) in
  let to_date := to_datetime (_to_var w) in
  (from_date, to_date).
End Methods.

Definition __init__ : t := {| _from_var := ""; _to_var := "" |}.

End DateEntry.

(** ** VarSelector *)

Module VarSelector.

Record t := {
  _condition_selector : ConditionSelect.t;
  _var_window : VarWindow.t;
  _selected_window : SelectedWindow.t (string * string);
  _filter : Filter.t;
  _date_entry : DateEntry.t
}.

Definition set_condition_selector (x : ConditionSelect.t) (w : t) : t :=
  {| _condition_selector := x; _var_window := _var_window w;
     _selected_window := _selected_window w; _filter := _filter w;
     _date_entry := _date_entry w |}.

Definition set_var_window (x : VarWindow.t) (w : t) : t :=
  {| _condition_selector := _condition_selector w; _var_window := x;
     _selected_window := _selected_window w; _filter := _filter w;
     _date_entry := _date_entry w |}.

Definition set_selected_window (x : SelectedWindow.t (string * string)) (w : t) : t :=
  {| _condition_selector := _condition_selector w; _var_window := _var_window w;
     _selected_window := x; _filter := _filter w;
     _date_entry := _date_entry w |}.

Definition set_filter (x : Filter.t) (w : t) : t :=
  {| _condition_selector := _condition_selector w; _var_window := _var_window w;
     _selected_window := _selected_window w; _filter := x;
     _date_entry := _date_entry w |}.

Definition set_date_entry (x : DateEntry.t) (w : t) : t :=
  {| _condition_selector := _condition_selector w; _var_window := _var_window w;
     _selected_window := _selected_window w; _filter := _filter w;
     _date_entry := x |}.

(** The user's gestures on the panel. The highlight of each of the two
    lists is set by a gesture of its own, to any set of rows. *)
Inductive event :=
| MenuCommand (name : string)          (* an entry of the condition menu *)
| FilterWrite (s : string)             (* the filter text becomes [s] *)
| HighlightItems (sel : list nat)      (* highlight in the item list *)
| HighlightSelected (sel : list nat)   (* highlight in the selected list *)
| AddPressed                           (* "Add Variable" or Return *)
| RemovePressed                        (* "Remove Variable" or BackSpace *)
| FromWrite (s : string)               (* the "from" date text *)
| ToWrite (s : string).                (* the "to" date text *)

(** Whether a gesture is a change of the filter text. *)
Definition is_filter_write (e : event) : bool :=
  match e with
  | FilterWrite _ => true
  | _ => false
  end.

(** The name the menu button shows after the gestures [es], when it
    showed [name] before: the last one picked. *)
Definition last_pick (name : string) (es : list event) : string :=
  foldl (λ name e, match e with MenuCommand n => n | _ => name end) name es.

Section Methods.
Variable lower : string → string.
Variable condition_list : list Condition.
Variable condition_dict : gmap string Condition.
Variable defaultCondition : Condition.

Definition add (w : t) : t :=
  let selected := VarWindow.get_selected (_var_window w) in
  let addlist :=
    foldl (λ addlist i,
             addlist ++ [(ConditionSelect.get (_condition_selector w), i)])
          [] selected in
  set_selected_window (SelectedWindow.add addlist (_selected_window w)) w.

Definition _filter_trace (w : t) : t :=
  let s := Filter.get_filter (_filter w) in
  set_var_window (VarWindow.filter lower s (_var_window w)) w.

(** [None] when [get_condition] raises its KeyError; nothing has been
    changed by then. *)
Definition _condition_trace (w : t) : option t :=
  condition ← ConditionSelect.get_condition condition_dict (_condition_selector w);
  Some (set_var_window (VarWindow.build_box condition (_var_window w)) w).

Definition get_selected (w : t) : list (string * string) :=
  SelectedWindow.get_displayed (_selected_window w).

Definition remove (w : t) : t :=
  set_selected_window (SelectedWindow.remove (_selected_window w)) w.

(** Calling a callback. An exception that escapes a callback is
    reported by Tk and the event loop goes on with the state reached. *)
Definition call (f : callback) (w : t) : t :=
  match f with
  | condition_trace => default w (_condition_trace w)
  | filter_trace => _filter_trace w
  end.

Definition __init__ : t :=
  {| _condition_selector :=
       ConditionSelect.set_tracefunc condition_trace
         (ConditionSelect.__init__ defaultCondition);
     _var_window := VarWindow.__init__ defaultCondition;
     _selected_window := SelectedWindow.__init__;
     _filter := Filter.add_trace filter_trace Filter.__init__;
     _date_entry := DateEntry.__init__ |}.

(** One turn of the event loop. *)
Definition step (w : t) (e : event) : t :=
  match e with
  | MenuCommand name =>
      let '(cs, f) := ConditionSelect.update_display name (_condition_selector w) in
      let w := set_condition_selector cs w in
      match f with Some f => call f w | None => w end
  | FilterWrite s =>
      let '(fl, fs) := Filter.write s (_filter w) in
      foldl (λ w f, call f w) (set_filter fl w) fs
  | HighlightItems sel =>
      set_var_window
        {| VarWindow.condition := VarWindow.condition (_var_window w);
           VarWindow.listbox :=
             Listbox.highlight sel (VarWindow.listbox (_var_window w)) |} w
  | HighlightSelected sel =>
      set_selected_window
        {| SelectedWindow.listbox :=
             Listbox.highlight sel (SelectedWindow.listbox (_selected_window w)) |} w
  | AddPressed => add w
  | RemovePressed => remove w
  | FromWrite s =>
      set_date_entry
        {| DateEntry._from_var := s;
           DateEntry._to_var := DateEntry._to_var (_date_entry w) |} w
  | ToWrite s =>
      set_date_entry
        {| DateEntry._from_var := DateEntry._from_var (_date_entry w);
           DateEntry._to_var := s |} w
  end.

Definition run (w : t) (es : list event) : t := foldl step w es.

Inductive reachable : t → Prop :=
| reachable_init : reachable __init__
| reachable_step w e : reachable w → reachable (step w e).
End Methods.

End VarSelector.

(** ** NumOfCases (numcases.py) *)

Module NumOfCases.

Section Applet.
Variable lower : string → string.
Variable condition_list : list Condition.
Variable condition_dict : gmap string Condition.
Variable defaultCondition : Condition.
Variable Timestamp : Type.
Variable to_datetime : string → option Timestamp.
(** The data frames of pandas, the number of their rows ([shape[0]]),
    and [datatools.filter_cases], [None] when it raises. *)
Variable DataFrame : Type.
Variable shape0 : DataFrame → nat.
Variable filter_cases :
  list (string * string) → option Timestamp * option Timestamp → option DataFrame.

(** [_num_variable] holds [None] for the initial [nan]. *)
Record t := {
  _var_selector : VarSelector.t;
  _num_variable : option nat;
  _compiled_cases : option DataFrame
}.

(** What the applet does to the world outside. *)
Inductive io :=
| to_csv (df : DataFrame) (path : string)   (* df.to_csv(path) *)
| wb_open (path : string).                  (* webbrowser.open(path) *)

(** [None] when [filter_cases] raises; nothing is stored then. *)
Definition _compile (w : t) : option t :=
  let filters := VarSelector.get_selected (_var_selector w) in
  let daterange :=
    DateEntry.get_daterange Timestamp to_datetime
      (VarSelector._date_entry (_var_selector w)) in
  df ← filter_cases filters daterange;
  let count := shape0 df in
  Some {| _var_selector := _var_selector w;
          _num_variable := Some count;
          _compiled_cases := Some df |}.

(** The new state and the effects performed, in order. *)
Definition _open (w : t) : t * list io :=
  match _compiled_cases w with
  | Some df => (w, [to_csv df "compiled cases.csv"; wb_open "compiled cases.csv"])
  | None => (w, [])
  end.

Definition __init__ : t :=
  {| _var_selector := VarSelector.__init__ defaultCondition;
     _num_variable := None;
     _compiled_cases := None |}.

Inductive event :=
| Selector (e : VarSelector.event)   (* a gesture on the selector panel *)
| CompilePressed                     (* "Compile Data" *)
| OpenPressed.                       (* "Open Compiled Data" *)

(** One turn of the event loop: the new state and the effects of the
    turn. An exception of a callback leaves the state as it was. *)
Definition step (w : t) (e : event) : t * list io :=
  match e with
  | Selector e =>
      ({| _var_selector :=
            VarSelector.step lower condition_dict (_var_selector w) e;
          _num_variable := _num_variable w;
          _compiled_cases := _compiled_cases w |}, [])
  | CompilePressed => (default w (_compile w), [])
  | OpenPressed => _open w
  end.

(** The state after the events [es] and everything done to the world
    on the way. *)
Definition run (w : t) (es : list event) : t * list io :=
  foldl (λ '(w, out) e, let '(w', o) := step w e in (w', out ++ o))
        (w, []) es.

Definition is_compile (e : event) : bool :=
  match e with CompilePressed => true | _ => false end.
End Applet.

End NumOfCases.

(** * Properties *)

(** ** Strings and sorting *)

Lemma prefix_true_iff (a b : string) :
  String.prefix a b = true ↔ ∃ q, b = a +:+ q.
Proof.
  revert b. induction a as [|c a IH]; intros [|d b]; simpl.
  - split; [intros _; by exists "" | done].
  - split; [intros _; by exists (String d b) | done].
  - split; [done | by intros [q ?]].
  - destruct (ascii_dec c d) as [->|Hne].
    + rewrite IH. split; intros [q Hq]; exists q; [by rewrite Hq | by injection Hq].
    + split; [done | intros [q Hq]; injection Hq; congruence].
Qed.

Lemma str_in_occurs_in (a b : string) :
  Py.str_in a b = true ↔ Py.occurs_in a b.
Proof.
  unfold Py.occurs_in. induction b as [|d b IH]; cbn [Py.str_in].
  - rewrite orb_false_r, prefix_true_iff. split.
    + intros [q Hq]. by exists "", q.
    + intros [p [q Hq]]. destruct p; [by exists q | done].
  - rewrite orb_true_iff, prefix_true_iff, IH. split.
    + intros [[q Hq] | [p [q Hq]]].
      * by exists "", q.
      * exists (String d p), q. cbn [String.append]. by rewrite Hq.
    + intros [p [q Hq]]. destruct p as [|e p]; cbn [String.append] in Hq.
      * left. by exists q.
      * right. exists p, q. by injection Hq.
Qed.

#[global] Instance occurs_in_dec a b : Decision (Py.occurs_in a b).
Proof.
  refine (cast_if (decide (Py.str_in a b = true))); by rewrite <-str_in_occurs_in.
Defined.

Lemma str_in_empty (b : string) : Py.str_in "" b = true.
Proof. destruct b; reflexivity. Qed.

(** ** The Listbox *)

Section ListboxFacts.
Context {A : Type}.
Implicit Types (lb : Listbox.t A) (x : A).

Lemma insert_at_size lb x :
  Listbox.insert (Listbox.size lb) x lb = lb ++ [Listbox.row x].
Proof.
  unfold Listbox.insert, Listbox.size.
  by rewrite take_ge, drop_ge by lia.
Qed.

Lemma get_all_app lb1 lb2 :
  Listbox.get_all (lb1 ++ lb2) = Listbox.get_all lb1 ++ Listbox.get_all lb2.
Proof. apply fmap_app. Qed.

Lemma get_all_rows (l : list A) : Listbox.get_all (Listbox.row <$> l) = l.
Proof.
  unfold Listbox.get_all. rewrite <-list_fmap_compose.
  induction l as [|x l IH]; [done | simpl; by f_equal].
Qed.

Lemma get_all_highlight sel lb :
  Listbox.get_all (Listbox.highlight sel lb) = Listbox.get_all lb.
Proof.
  unfold Listbox.get_all, Listbox.highlight.
  rewrite fmap_imap. apply imap_const.
Qed.

(** The loop [for var in l: if f(var): insert(size(), var)] appends the
    elements that pass the test, in the order of [l]. *)
Lemma insert_loop (f : A → bool) (P : A → Prop) `{∀ v, Decision (P v)}
    (l : list A) lb :
  (∀ v, f v = true ↔ P v) →
  foldl (λ lb var, if f var then Listbox.insert (Listbox.size lb) var lb else lb)
        lb l
  = lb ++ (Listbox.row <$> filter P l).
Proof.
  intros Hf. revert lb. induction l as [|v l IH]; intros lb; simpl.
  - by rewrite app_nil_r.
  - rewrite IH. destruct (f v) eqn:Hv.
    + rewrite filter_cons_True by by apply Hf.
      rewrite insert_at_size, <-app_assoc. done.
    + rewrite filter_cons_False; [done |].
      rewrite <-Hf. congruence.
Qed.

(** The loop [for i in range(k, k+n): insert(i, l[i])] on a box of [k]
    rows appends [l[k:k+n]]. *)
Lemma insert_range_loop (l : list A) n k lb :
  length lb = k → k + n ≤ length l →
  foldl (λ lb i,
           match l !! i with
           | Some v => Listbox.insert i v lb
           | None => lb
           end)
        lb (seq k n)
  = lb ++ (Listbox.row <$> take n (drop k l)).
Proof.
  revert k lb. induction n as [|n IH]; intros k lb Hk Hn; cbn [seq foldl].
  - by rewrite take_0, app_nil_r.
  - destruct (lookup_lt_is_Some_2 l k) as [v Hv]; [lia |].
    rewrite Hv. replace (Listbox.insert k v lb) with (lb ++ [Listbox.row v])
      by (subst k; symmetry; apply insert_at_size).
    rewrite IH; [| rewrite length_app; simpl; lia | lia].
    rewrite (drop_S _ _ _ Hv). simpl. by rewrite <-app_assoc.
Qed.
End ListboxFacts.

(** ** The item list (VarWindow) *)

Section VarWindowFacts.
Variable lower : string → string.
Implicit Types (c : Condition) (w : VarWindow.t) (s : string).

Lemma build_box_displayed c w :
  VarWindow.displayed (VarWindow.build_box c w) = array c.
Proof.
  unfold VarWindow.displayed, VarWindow.build_box. simpl.
  rewrite insert_range_loop by (simpl; lia).
  rewrite drop_0, take_ge by lia. apply get_all_rows.
Qed.

Lemma build_box_condition c w :
  VarWindow.condition (VarWindow.build_box c w) = c.
Proof. done. Qed.

Lemma filter_condition s w :
  VarWindow.condition (VarWindow.filter lower s w) = VarWindow.condition w.
Proof. done. Qed.

(** What [filter] leaves in the box depends on the stored condition
    only. *)
Lemma filter_displayed s w :
  VarWindow.displayed (VarWindow.filter lower s w)
  = filter (λ v, Py.occurs_in (lower s) (lower v)) (array (VarWindow.condition w)).
Proof.
  unfold VarWindow.displayed, VarWindow.filter. simpl.
  rewrite (insert_loop _ (λ v, Py.occurs_in (lower s) (lower v))).
  - apply get_all_rows.
  - intros v. apply str_in_occurs_in.
Qed.

Lemma occurs_in_empty s : Py.occurs_in "" s.
Proof. by exists "", s. Qed.

Lemma filter_occurs_in_empty (l : list string) :
  filter (λ v, Py.occurs_in "" (lower v)) l = l.
Proof.
  induction l as [|v l IH]; [done |].
  rewrite filter_cons_True by apply occurs_in_empty. by rewrite IH.
Qed.

(** C2: after [build_box c], [filter s] leaves in the item list exactly
    the elements of [c]'s array whose lowercase form contains the
    lowercase of [s], in the order they have in the array. *)
Theorem filter_after_build_box c s w :
  VarWindow.displayed (VarWindow.filter lower s (VarWindow.build_box c w))
  = filter (λ v, Py.occurs_in (lower s) (lower v)) (array c).
Proof. by rewrite filter_displayed, build_box_condition. Qed.

(** C5: on an item list that holds a condition, [filter("")] shows what
    [build_box] of that condition shows: the whole array. The lowercase
    of the empty string is taken to be empty, as it is in Python. *)
Theorem filter_empty_is_build_box w :
  lower "" = "" →
  VarWindow.displayed (VarWindow.filter lower "" w)
  = VarWindow.displayed (VarWindow.build_box (VarWindow.condition w) w)
  ∧ VarWindow.displayed (VarWindow.filter lower "" w)
    = array (VarWindow.condition w).
Proof.
  intros Hlow. rewrite build_box_displayed, filter_displayed, Hlow.
  split; apply filter_occurs_in_empty.
Qed.

(** C9: filtering does not accumulate. After [build_box c], [filter s1]
    followed by [filter s2] shows what [filter s2] alone shows, which is
    computed from the whole array of [c]. *)
Theorem filter_not_cumulative c s1 s2 w :
  VarWindow.displayed
    (VarWindow.filter lower s2 (VarWindow.filter lower s1 (VarWindow.build_box c w)))
  = VarWindow.displayed (VarWindow.filter lower s2 (VarWindow.build_box c w))
  ∧ VarWindow.displayed
      (VarWindow.filter lower s2 (VarWindow.filter lower s1 (VarWindow.build_box c w)))
    = filter (λ v, Py.occurs_in (lower s2) (lower v)) (array c).
Proof.
  rewrite !filter_displayed, filter_condition, build_box_condition. done.
Qed.
End VarWindowFacts.

(** C5 at the condition Diagnosis of three items, with the ASCII
    lowercase. *)
Lemma filter_empty_is_build_box_witness :
  let w := VarWindow.__init__ {| name := "Diagnosis"; array := ["flu"; "Cold"; "covid"] |} in
  VarWindow.displayed (VarWindow.filter Py.ascii_lower "" w)
  = VarWindow.displayed (VarWindow.build_box (VarWindow.condition w) w)
  ∧ VarWindow.displayed (VarWindow.filter Py.ascii_lower "" w)
    = ["flu"; "Cold"; "covid"].
Proof.
  intros w. apply (filter_empty_is_build_box Py.ascii_lower w). reflexivity.
Defined.

(** The first scenario of the specification: the filter "co" on Diagnosis
    shows cold and covid, whatever the case of the letters typed. *)
Example filter_scenario :
  let w := VarWindow.__init__ {| name := "Diagnosis"; array := ["flu"; "cold"; "covid"] |} in
  VarWindow.displayed (VarWindow.filter Py.ascii_lower "Co" w) = ["cold"; "covid"].
Proof. reflexivity. Qed.

(** ** The accumulated selection (SelectedWindow): add *)

Lemma filter_nil_of {A} (P : A → Prop) `{∀ x, Decision (P x)} (l : list A) :
  (∀ x, x ∈ l → ¬ P x) → filter P l = [].
Proof.
  induction l as [|x l IH]; intros Hl; [done |].
  rewrite filter_cons_False by (apply Hl; left).
  apply IH. intros y Hy. apply Hl. by right.
Qed.

Section SelectedWindowAdd.
Context {A : Type} `{EqDecision A}.
Implicit Types (w : SelectedWindow.t A) (varlist : list A).

Lemma add_listbox varlist w :
  SelectedWindow.listbox (SelectedWindow.add varlist w)
  = SelectedWindow.listbox w
    ++ (Listbox.row <$> filter (λ v, v ∉ SelectedWindow.get_displayed w) varlist).
Proof.
  unfold SelectedWindow.add, SelectedWindow.get_displayed. simpl.
  apply insert_loop. intros v. unfold Py.elem_in.
  by rewrite negb_true_iff, bool_decide_eq_false.
Qed.

Lemma add_displayed varlist w :
  SelectedWindow.get_displayed (SelectedWindow.add varlist w)
  = SelectedWindow.get_displayed w
    ++ filter (λ v, v ∉ SelectedWindow.get_displayed w) varlist.
Proof.
  unfold SelectedWindow.get_displayed at 1.
  by rewrite add_listbox, get_all_app, get_all_rows.
Qed.

(** What [add] computes: after the rows displayed, which stay as they
    are, come the input entries that were not displayed when the call
    started, in the order of the input. An entry that the input holds
    twice passes that test twice. *)
Theorem add_appends_new varlist w :
  SelectedWindow.get_displayed (SelectedWindow.add varlist w)
  = SelectedWindow.get_displayed w
    ++ filter (λ v, v ∉ SelectedWindow.get_displayed w) varlist
  ∧ SelectedWindow.listbox (SelectedWindow.add varlist w)
    = SelectedWindow.listbox w
      ++ (Listbox.row <$> filter (λ v, v ∉ SelectedWindow.get_displayed w) varlist).
Proof. split; [apply add_displayed | apply add_listbox]. Qed.

(** Without a repeat in the input, [add] keeps the list free of repeats. *)
Lemma add_NoDup varlist w :
  NoDup (SelectedWindow.get_displayed w) → NoDup varlist →
  NoDup (SelectedWindow.get_displayed (SelectedWindow.add varlist w)).
Proof.
  intros Hw Hv. rewrite add_displayed.
  apply NoDup_app. split_and!; [done | | by apply NoDup_filter].
  intros x Hx [Hnx _]%list_elem_of_filter. done.
Qed.

(** Adding again what was just added changes nothing. *)
Lemma add_again varlist w :
  SelectedWindow.add varlist (SelectedWindow.add varlist w)
  = SelectedWindow.add varlist w.
Proof.
  pose proof (add_listbox varlist (SelectedWindow.add varlist w)) as Hrows.
  rewrite add_displayed in Hrows.
  rewrite filter_nil_of, app_nil_r in Hrows.
  - destruct (SelectedWindow.add varlist (SelectedWindow.add varlist w)).
    destruct (SelectedWindow.add varlist w). simpl in Hrows. by subst.
  - intros v Hv Hnot. apply Hnot, elem_of_app.
    destruct (decide (v ∈ SelectedWindow.get_displayed w)) as [Hin|Hout]; [by left |].
    right. by apply list_elem_of_filter.
Qed.
End SelectedWindowAdd.

(** ** The accumulated selection (SelectedWindow): remove *)

#[local] Instance flip_le_trans : Transitive (flip Nat.le).
Proof. intros x y z. unfold flip. lia. Qed.

#[local] Instance flip_le_total : Total (flip Nat.le).
Proof. intros x y. unfold flip. lia. Qed.

#[local] Instance flip_le_antisymm : AntiSymm (=) (flip Nat.le).
Proof. intros x y. unfold flip. lia. Qed.

Section SelectedWindowRemove.
Context {A : Type}.
Implicit Types (lb : Listbox.t A) (w : SelectedWindow.t A).

Lemma highlighted_from_S k lb :
  Listbox.highlighted_from (S k) lb = S <$> Listbox.highlighted_from k lb.
Proof.
  revert k. induction lb as [|[x b] lb IH]; intros k; [done |].
  simpl. rewrite IH. by destruct b.
Qed.

Lemma highlighted_from_ge k lb i :
  i ∈ Listbox.highlighted_from k lb → k ≤ i.
Proof.
  revert k. induction lb as [|[x b] lb IH]; intros k; simpl.
  - by intros ?%elem_of_nil.
  - destruct b.
    + intros [->|Hi%IH]%elem_of_cons; lia.
    + intros Hi%IH. lia.
Qed.

(** [curselection] answers ascending indices, none twice. *)
Lemma highlighted_from_sorted k lb :
  StronglySorted lt (Listbox.highlighted_from k lb).
Proof.
  revert k. induction lb as [|[x b] lb IH]; intros k; simpl.
  - constructor.
  - destruct b; [| apply IH].
    constructor; [apply IH |].
    apply Forall_forall. intros i Hi%highlighted_from_ge. lia.
Qed.

Lemma sorted_lt_reverse (l : list nat) :
  StronglySorted lt l → StronglySorted (flip lt) (reverse l).
Proof.
  induction 1 as [|i l Hl IH Hi]; [constructor |].
  rewrite reverse_cons. apply StronglySorted_app_2.
  - intros j k Hj ->%list_elem_of_singleton. rewrite elem_of_reverse in Hj.
    rewrite Forall_forall in Hi. unfold flip. by apply Hi.
  - done.
  - repeat constructor.
Qed.

Lemma sorted_flip_lt_le (l : list nat) :
  StronglySorted (flip lt) l → StronglySorted (flip Nat.le) l.
Proof.
  induction 1 as [|i l Hl IH Hi]; constructor; [done |].
  eapply Forall_impl; [done |]. unfold flip. intros; simpl in *; lia.
Qed.

(** Sorting the selection in reverse turns it around. *)
Lemma sort_reverse_curselection lb :
  Py.sort_reverse (Listbox.curselection lb) = reverse (Listbox.curselection lb).
Proof.
  unfold Py.sort_reverse, Listbox.curselection.
  apply (StronglySorted_unique (flip Nat.le)).
  - apply StronglySorted_merge_sort; apply _.
  - apply sorted_flip_lt_le, sorted_lt_reverse, highlighted_from_sorted.
  - by rewrite merge_sort_Permutation, reverse_Permutation.
Qed.

Lemma delete_loop_cons (r : A * bool) lb (l : list nat) :
  foldl (λ lb i, Listbox.delete i lb) (r :: lb) (S <$> l)
  = r :: foldl (λ lb i, Listbox.delete i lb) lb l.
Proof.
  revert lb. induction l as [|i l IH]; intros lb; [done |].
  simpl. apply IH.
Qed.

(** Deleting the highlighted rows from the last to the first leaves the
    rows that are not highlighted. *)
Lemma delete_loop lb :
  foldl (λ lb i, Listbox.delete i lb) lb (reverse (Listbox.curselection lb))
  = filter (λ r, r.2 = false) lb.
Proof.
  unfold Listbox.curselection.
  induction lb as [|[x b] lb IH]; [done |].
  simpl. rewrite highlighted_from_S. destruct b.
  - rewrite reverse_cons, foldl_app, <-fmap_reverse, delete_loop_cons, IH.
    by rewrite filter_cons_False.
  - rewrite <-fmap_reverse, delete_loop_cons, IH.
    by rewrite filter_cons_True.
Qed.

Lemma remove_listbox w :
  SelectedWindow.listbox (SelectedWindow.remove w)
  = filter (λ r, r.2 = false) (SelectedWindow.listbox w).
Proof.
  unfold SelectedWindow.remove. simpl.
  rewrite sort_reverse_curselection. apply delete_loop.
Qed.

Lemma keep_outside_from_ext k (sel sel' : list nat) (l : list A) :
  (∀ j, k ≤ j → j ∈ sel ↔ j ∈ sel') →
  Listbox.keep_outside_from k sel l = Listbox.keep_outside_from k sel' l.
Proof.
  revert k. induction l as [|x l IH]; intros k Hsel; [done |].
  simpl. rewrite (IH (S k)) by (intros j Hj; apply Hsel; lia).
  rewrite (bool_decide_ext _ _ (Hsel k (le_n k))). done.
Qed.

(** [curselection] lists the indices of the highlighted rows. *)
Lemma elem_of_highlighted_from k lb i :
  i ∈ Listbox.highlighted_from k lb ↔ ∃ j x, i = k + j ∧ lb !! j = Some (x, true).
Proof.
  revert k. induction lb as [|[x b] lb IH]; intros k; simpl.
  - split; [by intros ?%elem_of_nil | by intros (j & y & _ & ?)].
  - assert (i ∈ Listbox.highlighted_from (S k) lb
            ↔ ∃ j y, i = k + S j ∧ lb !! j = Some (y, true)) as IH'.
    { rewrite IH. split; intros (j & y & -> & Hj); exists j, y; split; (lia || done). }
    destruct b; [rewrite elem_of_cons |]; rewrite IH'; split.
    + intros [->|(j & y & -> & Hj)]; [exists 0, x | exists (S j), y]; split; (lia || done).
    + intros ([|j] & y & -> & Hj); [left; lia | right; by exists j, y].
    + intros (j & y & -> & Hj). by exists (S j), y.
    + intros ([|j] & y & -> & Hj); [done | by exists j, y].
Qed.

Lemma elem_of_curselection lb i :
  i ∈ Listbox.curselection lb ↔ ∃ x, lb !! i = Some (x, true).
Proof.
  unfold Listbox.curselection. rewrite elem_of_highlighted_from. split.
  - intros (j & x & -> & Hj). by exists x.
  - intros [x Hx]. by exists i, x.
Qed.

(** [keep_outside] keeps the elements at the indices outside [sel], and
    keeps them in order. *)
Lemma elem_of_keep_outside_from k (sel : list nat) (l : list A) x :
  x ∈ Listbox.keep_outside_from k sel l ↔ ∃ j, l !! j = Some x ∧ k + j ∉ sel.
Proof.
  revert k. induction l as [|y l IH]; intros k; simpl.
  - split; [by intros ?%elem_of_nil | by intros (j & ? & _)].
  - assert (x ∈ Listbox.keep_outside_from (S k) sel l
            ↔ ∃ j, l !! j = Some x ∧ k + S j ∉ sel) as IH'.
    { rewrite IH. split; intros (j & Hj & Hout); exists j; split; try done.
      - by replace (k + S j) with (S k + j) by lia.
      - by replace (S k + j) with (k + S j) by lia. }
    case_bool_decide as Hk; [| rewrite elem_of_cons]; rewrite IH'; split.
    + intros (j & Hj & Hout). by exists (S j).
    + intros ([|j] & Hj & Hout); [| by exists j].
      destruct Hout. by replace (k + 0) with k by lia.
    + intros [->|(j & Hj & Hout)]; [exists 0 | by exists (S j)].
      split; [done |]. by replace (k + 0) with k by lia.
    + intros ([|j] & Hj & Hout); [left; by injection Hj | right; by exists j].
Qed.

Lemma keep_outside_from_sublist k (sel : list nat) (l : list A) :
  Listbox.keep_outside_from k sel l `sublist_of` l.
Proof.
  revert k. induction l as [|y l IH]; intros k; simpl; [done |].
  case_bool_decide; [by apply sublist_cons | by apply sublist_skip].
Qed.

(** The rows that are not highlighted are the rows at the indices that
    [curselection] does not list. *)
Lemma unhighlighted_keep_outside k lb :
  Listbox.get_all (filter (λ r, r.2 = false) lb)
  = Listbox.keep_outside_from k (Listbox.highlighted_from k lb) (Listbox.get_all lb).
Proof.
  revert k. induction lb as [|[x b] lb IH]; intros k; [done |].
  cbn [Listbox.highlighted_from Listbox.get_all fmap list_fmap fst
       Listbox.keep_outside_from].
  destruct b.
  - rewrite filter_cons_False by done.
    rewrite bool_decide_eq_true_2 by left.
    rewrite (IH (S k)). apply keep_outside_from_ext.
    intros j Hj. rewrite elem_of_cons. split; [by right | intros [->|?]; [lia | done]].
  - rewrite filter_cons_True by done.
    rewrite bool_decide_eq_false_2.
    + cbn [Listbox.get_all fmap list_fmap fst]. f_equal. apply (IH (S k)).
    + intros Hk%highlighted_from_ge. lia.
Qed.

Lemma unhighlighted_curselection k lb :
  Listbox.highlighted_from k (filter (λ r, r.2 = false) lb) = [].
Proof.
  revert k. induction lb as [|[x b] lb IH]; intros k; [done |].
  destruct b.
  - rewrite filter_cons_False by done. apply IH.
  - rewrite filter_cons_True by done. simpl. apply IH.
Qed.

(** C3: [remove] leaves in the list the entries at the rows that were not
    highlighted, in the order they had, and no other; it deletes by
    strictly descending index. Nothing is highlighted afterwards. *)
Theorem remove_deletes_highlighted w :
  SelectedWindow.get_displayed (SelectedWindow.remove w)
  = Listbox.keep_outside (Listbox.curselection (SelectedWindow.listbox w))
      (SelectedWindow.get_displayed w)
  ∧ StronglySorted (flip lt)
      (Py.sort_reverse (Listbox.curselection (SelectedWindow.listbox w)))
  ∧ SelectedWindow.listbox (SelectedWindow.remove w)
    = filter (λ r, r.2 = false) (SelectedWindow.listbox w)
  ∧ Listbox.curselection (SelectedWindow.listbox (SelectedWindow.remove w)) = [].
Proof.
  split_and!.
  - unfold SelectedWindow.get_displayed. rewrite remove_listbox.
    apply unhighlighted_keep_outside.
  - rewrite sort_reverse_curselection.
    apply sorted_lt_reverse, highlighted_from_sorted.
  - apply remove_listbox.
  - rewrite remove_listbox. apply unhighlighted_curselection.
Qed.

(** C10: with no row highlighted, [remove] changes nothing: every entry
    stays where it is. *)
Theorem remove_without_highlight w :
  Listbox.curselection (SelectedWindow.listbox w) = [] →
  SelectedWindow.remove w = w
  ∧ SelectedWindow.get_displayed (SelectedWindow.remove w)
    = SelectedWindow.get_displayed w.
Proof.
  intros Hsel.
  assert (SelectedWindow.remove w = w) as Hw.
  { unfold SelectedWindow.remove. rewrite Hsel. by destruct w. }
  by rewrite Hw.
Qed.
End SelectedWindowRemove.

(** C10 on a list of two entries, neither highlighted. *)
Lemma remove_without_highlight_witness :
  let w := {| SelectedWindow.listbox :=
                [(("Diagnosis", "cold"), false); (("Diagnosis", "covid"), false)] |} in
  SelectedWindow.remove w = w
  ∧ SelectedWindow.get_displayed (SelectedWindow.remove w)
    = [("Diagnosis", "cold"); ("Diagnosis", "covid")].
Proof.
  intros w. apply (remove_without_highlight w). reflexivity.
Defined.

(** The second scenario of the specification: of three entries, those at
    rows 0 and 2 are highlighted; [remove] keeps the one at row 1. *)
Example remove_scenario :
  SelectedWindow.get_displayed
    (SelectedWindow.remove
       {| SelectedWindow.listbox :=
            Listbox.highlight [0; 2]
              (Listbox.row <$> [("Diagnosis", "flu"); ("Diagnosis", "cold");
                                ("Diagnosis", "covid")]) |})
  = [("Diagnosis", "cold")].
Proof. reflexivity. Qed.

(** C1, where the code departs from it: one call of [add] whose input
    holds the same pair twice, on a list that does not show the pair,
    displays the pair twice. *)
Theorem add_repeated_in_one_call :
  let entry := ("Diagnosis", "cold") in
  let w := SelectedWindow.add [entry; entry] SelectedWindow.__init__ in
  SelectedWindow.get_displayed w = [entry; entry]
  ∧ bool_decide (NoDup (SelectedWindow.get_displayed w)) = false.
Proof. split; reflexivity. Qed.

(** The contract of [add] in the words of the specification: each input
    entry is appended unless it is present, by equality of pairs, in the
    list as it stands when the entry is reached; entries displayed stay
    at their positions. *)
Definition add_as_specified {A} `{EqDecision A}
    (varlist : list A) (w : SelectedWindow.t A) : SelectedWindow.t A :=
  {| SelectedWindow.listbox :=
       foldl (λ lb var,
                if negb (Py.elem_in var (Listbox.get_all lb))
                then Listbox.insert (Listbox.size lb) var lb
                else lb)
             (SelectedWindow.listbox w) varlist |}.

Lemma add_loops_agree {A} `{EqDecision A}
    (allvars l : list A) (lb : Listbox.t A) :
  NoDup l →
  (∀ v, v ∈ l → v ∈ allvars ↔ v ∈ Listbox.get_all lb) →
  foldl (λ lb var,
           if negb (Py.elem_in var allvars)
           then Listbox.insert (Listbox.size lb) var lb
           else lb) lb l
  = foldl (λ lb var,
             if negb (Py.elem_in var (Listbox.get_all lb))
             then Listbox.insert (Listbox.size lb) var lb
             else lb) lb l.
Proof.
  revert lb. induction l as [|v l IH]; intros lb Hnd Hsame; [done |].
  apply NoDup_cons in Hnd as [Hv Hnd]. cbn [foldl].
  assert (Py.elem_in v allvars = Py.elem_in v (Listbox.get_all lb)) as ->.
  { unfold Py.elem_in. apply bool_decide_ext, Hsame. by left. }
  destruct (Py.elem_in v (Listbox.get_all lb)); cbn [negb].
  - apply IH; [done |]. intros v' Hv'. apply Hsame. by right.
  - apply IH; [done |]. intros v' Hv'.
    rewrite insert_at_size, get_all_app, elem_of_app, (Hsame v') by by right.
    split; [by left |]. intros [Hin|Hin]; [done |].
    apply list_elem_of_singleton in Hin as ->. done.
Qed.

(** On an input free of repeats the code and the contract agree: testing
    against the rows read before the loop is then as good as testing
    against the rows of the moment. *)
Lemma add_as_specified_NoDup {A} `{EqDecision A}
    (varlist : list A) (w : SelectedWindow.t A) :
  NoDup varlist → SelectedWindow.add varlist w = add_as_specified varlist w.
Proof.
  intros Hnd. unfold SelectedWindow.add, add_as_specified. f_equal.
  by apply add_loops_agree.
Qed.

(** C4, where the code departs from it: on a list that shows one entry,
    one call of [add] whose input holds a new pair twice appends the pair
    twice, the second time although it is present by then; the contract
    appends it once. *)
Theorem add_appends_present_entry :
  let shown := ("Diagnosis", "flu") in
  let entry := ("Diagnosis", "cold") in
  let w := {| SelectedWindow.listbox := [(shown, true)] |} in
  SelectedWindow.get_displayed (SelectedWindow.add [entry; shown; entry] w)
  = [shown; entry; entry]
  ∧ SelectedWindow.get_displayed (add_as_specified [entry; shown; entry] w)
    = [shown; entry].
Proof. split; reflexivity. Qed.

(** ** The selector panel (VarSelector) *)

(** The same through the panel: the condition's array names an item
    twice, both rows are highlighted, and Add is pressed once. *)
Example add_pressed_on_repeated_item :
  let c := {| name := "Diagnosis"; array := ["cold"; "cold"] |} in
  VarSelector.get_selected
    (VarSelector.run Py.ascii_lower ∅ (VarSelector.__init__ c)
       [VarSelector.HighlightItems [0; 1]; VarSelector.AddPressed])
  = [("Diagnosis", "cold"); ("Diagnosis", "cold")].
Proof. reflexivity. Qed.

(** The first scenario of the specification, through the panel. *)
Example add_scenario :
  let c := {| name := "Diagnosis"; array := ["flu"; "cold"; "covid"] |} in
  VarSelector.get_selected
    (VarSelector.run Py.ascii_lower ∅ (VarSelector.__init__ c)
       [VarSelector.FilterWrite "co"; VarSelector.HighlightItems [0; 1];
        VarSelector.AddPressed; VarSelector.AddPressed])
  = [("Diagnosis", "cold"); ("Diagnosis", "covid")].
Proof. reflexivity. Qed.

Section VarSelectorFacts.
Variable lower : string → string.
Variable condition_dict : gmap string Condition.
Variable defaultCondition : Condition.
Implicit Types (w : VarSelector.t) (e : VarSelector.event).

Abbreviation step := (VarSelector.step lower condition_dict).
Abbreviation run := (VarSelector.run lower condition_dict).
Abbreviation reachable := (VarSelector.reachable lower condition_dict defaultCondition).
Abbreviation items w := (VarWindow.displayed (VarSelector._var_window w)).

Lemma call_condition_selector f w :
  VarSelector._condition_selector (VarSelector.call lower condition_dict f w)
  = VarSelector._condition_selector w.
Proof.
  destruct f; simpl; [| done].
  unfold VarSelector._condition_trace.
  by destruct (ConditionSelect.get_condition _ _).
Qed.

Lemma calls_condition_selector fs w :
  VarSelector._condition_selector
    (foldl (λ w f, VarSelector.call lower condition_dict f w) w fs)
  = VarSelector._condition_selector w.
Proof.
  revert w. induction fs as [|f fs IH]; intros w; [done |].
  simpl. by rewrite IH, call_condition_selector.
Qed.

Lemma step_tracefunc w e :
  ConditionSelect.tracefunc (VarSelector._condition_selector (step w e))
  = ConditionSelect.tracefunc (VarSelector._condition_selector w).
Proof.
  destruct e; simpl; try done.
  - destruct (ConditionSelect.tracefunc (VarSelector._condition_selector w)) eqn:Ht.
    all: by rewrite ?call_condition_selector.
  - by rewrite calls_condition_selector.
Qed.

(** The wiring of [__init__] stays: the menu's trace function is
    [_condition_trace] in every state the panel reaches. *)
Lemma reachable_tracefunc w :
  reachable w →
  ConditionSelect.tracefunc (VarSelector._condition_selector w)
  = Some condition_trace.
Proof.
  induction 1 as [|w e _ IH]; [done |]. by rewrite step_tracefunc.
Qed.

(** What is asked of a gesture between a pick and the next change of the
    filter text: it is not a change of the filter text, and a pick is of a
    name that [condition_dict] knows. *)
Definition quiet e : Prop :=
  VarSelector.is_filter_write e = false
  ∧ ∀ n, e = VarSelector.MenuCommand n → is_Some (condition_dict !! n).

(** The item list shows the whole array of the condition whose name the
    menu button shows. *)
Definition shows_picked w : Prop :=
  ∃ c, condition_dict !! ConditionSelect.get (VarSelector._condition_selector w) = Some c
       ∧ items w = array c.

(** A pick in the menu, once the trace function is wired: the name is
    shown by the menu button and the item list is rebuilt from the
    condition of that name; the filter text stays. *)
Lemma step_menu_command w name c :
  ConditionSelect.tracefunc (VarSelector._condition_selector w) = Some condition_trace →
  condition_dict !! name = Some c →
  items (step w (VarSelector.MenuCommand name)) = array c
  ∧ ConditionSelect.get
      (VarSelector._condition_selector (step w (VarSelector.MenuCommand name)))
    = name
  ∧ VarSelector._filter (step w (VarSelector.MenuCommand name))
    = VarSelector._filter w.
Proof.
  intros Hw Hc. simpl. rewrite Hw. simpl.
  unfold VarSelector._condition_trace, ConditionSelect.get_condition. simpl.
  rewrite Hc. simpl. split_and!; [apply build_box_displayed | done | done].
Qed.

(** A gesture that is neither a pick nor a change of the filter text
    leaves the item list, the menu button and the filter text as they
    are. *)
Lemma step_keeps_items w e :
  VarSelector.is_filter_write e = false →
  (∀ n, e ≠ VarSelector.MenuCommand n) →
  items (step w e) = items w
  ∧ VarSelector._condition_selector (step w e) = VarSelector._condition_selector w
  ∧ VarSelector._filter (step w e) = VarSelector._filter w.
Proof.
  destruct e as [n|s|sel|sel| | |s|s]; try done; intros _ Hpick.
  - by destruct (Hpick n).
  - simpl. split_and!; [apply get_all_highlight | done | done].
Qed.

Lemma step_quiet w e :
  ConditionSelect.tracefunc (VarSelector._condition_selector w) = Some condition_trace →
  shows_picked w → quiet e →
  shows_picked (step w e)
  ∧ ConditionSelect.get (VarSelector._condition_selector (step w e))
    = VarSelector.last_pick
        (ConditionSelect.get (VarSelector._condition_selector w)) [e]
  ∧ VarSelector._filter (step w e) = VarSelector._filter w.
Proof.
  intros Hw (c & Hc & Hitems) [Hfilter Hpick].
  destruct e as [n|s|sel|sel| | |s|s].
  1: { destruct (Hpick n eq_refl) as [c' Hc'].
       destruct (step_menu_command w n c' Hw Hc') as (Hi & Hn & Hf).
       split_and!; [| done | done]. exists c'. by rewrite Hn. }
  1: done.
  all: destruct (step_keeps_items w _ Hfilter) as (Hi & Hs & Hf); [done |].
  all: split_and!; [exists c; by rewrite Hs, Hi | by rewrite Hs | done].
Qed.

Lemma run_quiet w es :
  ConditionSelect.tracefunc (VarSelector._condition_selector w) = Some condition_trace →
  shows_picked w → Forall quiet es →
  shows_picked (run w es)
  ∧ ConditionSelect.get (VarSelector._condition_selector (run w es))
    = VarSelector.last_pick
        (ConditionSelect.get (VarSelector._condition_selector w)) es
  ∧ VarSelector._filter (run w es) = VarSelector._filter w.
Proof.
  intros Hw Hshows Hes. revert w Hw Hshows.
  induction Hes as [|e es He _ IH]; intros w Hw Hshows; [done |].
  destruct (step_quiet w e Hw Hshows He) as (Hshows' & Hn & Hf).
  destruct (IH (step w e)) as (Hshows'' & Hn' & Hf').
  { by rewrite step_tracefunc. }
  { done. }
  unfold VarSelector.run, VarSelector.last_pick in *. simpl in *.
  split_and!; [done | by rewrite Hn', Hn | by rewrite Hf', Hf].
Qed.

(** C6: in a state the panel reaches, after a pick of a condition and any
    gestures that are not a change of the filter text (further picks
    among them), the item list shows the whole array of the condition
    picked last; the filter text is the one typed before, and it is not
    applied. The names picked are names of [condition_dict], as the
    entries of the menu are. *)
Theorem condition_change_shows_full_array w name c es :
  reachable w →
  Forall quiet (VarSelector.MenuCommand name :: es) →
  condition_dict !! VarSelector.last_pick name es = Some c →
  items (run (step w (VarSelector.MenuCommand name)) es) = array c
  ∧ ConditionSelect.get
      (VarSelector._condition_selector
         (run (step w (VarSelector.MenuCommand name)) es))
    = VarSelector.last_pick name es
  ∧ Filter.get_filter
      (VarSelector._filter (run (step w (VarSelector.MenuCommand name)) es))
    = Filter.get_filter (VarSelector._filter w).
Proof.
  intros Hw Hes Hc. apply Forall_cons in Hes as [[_ Hname] Hes].
  destruct (Hname name eq_refl) as [c0 Hc0].
  pose proof (reachable_tracefunc w Hw) as Ht.
  destruct (step_menu_command w name c0 Ht Hc0) as (Hi & Hn & Hf).
  destruct (run_quiet (step w (VarSelector.MenuCommand name)) es)
    as ((c' & Hc' & Hi') & Hn' & Hf').
  { by rewrite step_tracefunc. }
  { exists c0. by rewrite Hn. }
  { done. }
  rewrite Hn in Hn'. rewrite Hn', Hc in Hc'. injection Hc' as <-.
  split_and!; [done | done | by rewrite Hf', Hf].
Qed.
End VarSelectorFacts.

(** A catalog of two conditions to run the panel on. *)
Definition diagnosis : Condition :=
  {| name := "Diagnosis"; array := ["flu"; "cold"; "covid"] |}.

Definition symptom : Condition :=
  {| name := "Symptom"; array := ["fever"; "Cough"] |}.

Definition two_conditions : gmap string Condition :=
  <["Diagnosis" := diagnosis]> (<["Symptom" := symptom]> ∅).

(** C6 with the filter text "co" typed first: picking Symptom shows fever
    and Cough, though neither passes the filter, also after an item is
    highlighted and added. *)
Lemma condition_change_shows_full_array_witness :
  let w :=
    VarSelector.step Py.ascii_lower two_conditions
      (VarSelector.__init__ diagnosis) (VarSelector.FilterWrite "co") in
  let w' :=
    VarSelector.run Py.ascii_lower two_conditions
      (VarSelector.step Py.ascii_lower two_conditions w
         (VarSelector.MenuCommand "Symptom"))
      [VarSelector.HighlightItems [0]; VarSelector.AddPressed] in
  VarWindow.displayed (VarSelector._var_window w') = ["fever"; "Cough"]
  ∧ ConditionSelect.get (VarSelector._condition_selector w') = "Symptom"
  ∧ Filter.get_filter (VarSelector._filter w') = "co".
Proof.
  intros w w'.
  apply (condition_change_shows_full_array Py.ascii_lower two_conditions
           diagnosis w "Symptom" symptom).
  - apply VarSelector.reachable_step, VarSelector.reachable_init.
  - repeat constructor; try (intros n; discriminate).
    intros n [= <-]. by exists symptom.
  - reflexivity.
Defined.

(** ** The applet (NumOfCases) *)

Section NumOfCasesFacts.
Variable lower : string → string.
Variable condition_dict : gmap string Condition.
Variable defaultCondition : Condition.
Variable Timestamp : Type.
Variable to_datetime : string → option Timestamp.
Variable DataFrame : Type.
Variable shape0 : DataFrame → nat.
Variable filter_cases :
  list (string * string) → option Timestamp * option Timestamp → option DataFrame.
Implicit Types (w : NumOfCases.t DataFrame) (e : NumOfCases.event).

Abbreviation step :=
  (NumOfCases.step lower condition_dict Timestamp to_datetime DataFrame shape0
     filter_cases).
Abbreviation run :=
  (NumOfCases.run lower condition_dict Timestamp to_datetime DataFrame shape0
     filter_cases).
Abbreviation init := (NumOfCases.__init__ defaultCondition DataFrame).

Lemma open_without_result w :
  NumOfCases._compiled_cases DataFrame w = None →
  NumOfCases._open DataFrame w = (w, []).
Proof. intros Hw. unfold NumOfCases._open. by rewrite Hw. Qed.

(** A gesture other than Compile, with no result stored: no result is
    stored afterwards and nothing is done to the world. *)
Lemma step_without_compile w e :
  NumOfCases.is_compile e = false →
  NumOfCases._compiled_cases DataFrame w = None →
  NumOfCases._compiled_cases DataFrame (step w e).1 = None ∧ (step w e).2 = [].
Proof.
  intros He Hw. destruct e; [done | done |].
  simpl. by rewrite open_without_result.
Qed.

Lemma run_snoc w es e :
  run w (es ++ [e])
  = ((step (run w es).1 e).1, (run w es).2 ++ (step (run w es).1 e).2).
Proof.
  unfold NumOfCases.run. rewrite foldl_snoc.
  destruct (foldl _ _ es) as [w' out]. simpl.
  by destruct (NumOfCases.step _ _ _ _ _ _ _ w' e).
Qed.

Lemma run_without_compile es :
  Forall (λ e, NumOfCases.is_compile e = false) es →
  NumOfCases._compiled_cases DataFrame (run init es).1 = None
  ∧ (run init es).2 = [].
Proof.
  induction es as [|e es IH] using rev_ind; [done |].
  rewrite Forall_app, Forall_singleton. intros [Hes He].
  destruct (IH Hes) as [Hnone Hout].
  destruct (step_without_compile (run init es).1 e He Hnone) as [Hnone' Hout'].
  rewrite run_snoc. cbn [fst snd]. by rewrite Hout, Hout'.
Qed.

(** C8: as long as Compile has not been pressed no result is stored, and
    [_open] then leaves the state as it is and does nothing to the world,
    whatever was pressed before, Open included. On any state, [_open]
    keeps the state, does nothing when no result is stored, and with the
    result [df] stored writes [df] to "compiled cases.csv" and then has
    that same path opened. *)
Theorem open_only_with_result es w :
  Forall (λ e, NumOfCases.is_compile e = false) es →
  NumOfCases._compiled_cases DataFrame (run init es).1 = None
  ∧ (run init es).2 = []
  ∧ NumOfCases._open DataFrame (run init es).1 = ((run init es).1, [])
  ∧ NumOfCases._open DataFrame w
    = (w, match NumOfCases._compiled_cases DataFrame w with
          | None => []
          | Some df =>
              [NumOfCases.to_csv DataFrame df "compiled cases.csv";
               NumOfCases.wb_open DataFrame "compiled cases.csv"]
          end).
Proof.
  intros Hes. destruct (run_without_compile es Hes) as [Hnone Hout].
  split_and!; [done | done | by apply open_without_result |].
  unfold NumOfCases._open. by destruct (NumOfCases._compiled_cases _ w).
Qed.
End NumOfCasesFacts.

(** C8 on an applet where Open is pressed after an item was added, and on
    a state that stores a result of two cases. *)
Lemma open_only_with_result_witness :
  let run :=
    NumOfCases.run Py.ascii_lower two_conditions string (λ _, None)
      (list string) length (λ _ _, None) in
  let init := NumOfCases.__init__ diagnosis (list string) in
  let es :=
    [NumOfCases.Selector (VarSelector.HighlightItems [1]);
     NumOfCases.Selector VarSelector.AddPressed;
     NumOfCases.OpenPressed] in
  let w :=
    {| NumOfCases._var_selector := VarSelector.__init__ diagnosis;
       NumOfCases._num_variable := Some 2;
       NumOfCases._compiled_cases := Some ["case 1"; "case 2"] |} in
  NumOfCases._compiled_cases (list string) (run init es).1 = None
  ∧ (run init es).2 = []
  ∧ NumOfCases._open (list string) (run init es).1 = ((run init es).1, [])
  ∧ NumOfCases._open (list string) w
    = (w, [NumOfCases.to_csv (list string) ["case 1"; "case 2"] "compiled cases.csv";
           NumOfCases.wb_open (list string) "compiled cases.csv"]).
Proof.
  intros run init es w.
  apply (open_only_with_result Py.ascii_lower two_conditions diagnosis string
           (λ _, None) (list string) length (λ _ _, None) es w).
  repeat constructor.
Defined.

(** * Further properties of the widgets *)

(** ** SelectedWindow.add *)

Section SelectedWindowAddMore.
Context {A : Type} `{EqDecision A}.
Implicit Types (w : SelectedWindow.t A) (varlist : list A).

(** X1: a list free of repeats stays free of repeats over any sequence of
    calls of [add] whose inputs are each free of repeats. *)
Theorem adds_keep_distinct (inputs : list (list A)) w :
  NoDup (SelectedWindow.get_displayed w) →
  Forall NoDup inputs →
  NoDup (SelectedWindow.get_displayed
           (foldl (λ w varlist, SelectedWindow.add varlist w) w inputs)).
Proof.
  intros Hw Hin. revert w Hw.
  induction Hin as [|varlist inputs Hv _ IH]; intros w Hw; [done |].
  simpl. apply IH. by apply add_NoDup.
Qed.

(** X2: [add] of entries that are all displayed already changes nothing,
    neither the entries nor the highlight. *)
Theorem add_present_is_noop varlist w :
  Forall (λ v, v ∈ SelectedWindow.get_displayed w) varlist →
  SelectedWindow.add varlist w = w.
Proof.
  intros Hall. pose proof (add_listbox varlist w) as Hrows.
  rewrite filter_nil_of, app_nil_r in Hrows.
  - destruct (SelectedWindow.add varlist w), w. simpl in Hrows. by subst.
  - rewrite Forall_forall in Hall. intros v Hv Hnot. by apply Hnot, Hall.
Qed.

(** X3: after [add] the list shows the entries it showed before and the
    entries of the input, and no other. *)
Theorem add_elements varlist w x :
  x ∈ SelectedWindow.get_displayed (SelectedWindow.add varlist w)
  ↔ x ∈ SelectedWindow.get_displayed w ∨ x ∈ varlist.
Proof.
  rewrite add_displayed, elem_of_app, list_elem_of_filter.
  destruct (decide (x ∈ SelectedWindow.get_displayed w)) as [Hin|Hout].
  - split; intros _; by left.
  - split; (intros [Hold|Hnew]; [by left | right]); [apply Hnew | done].
Qed.
End SelectedWindowAddMore.

(** X1 on two inputs that share an entry. *)
Lemma adds_keep_distinct_witness :
  NoDup (SelectedWindow.get_displayed
           (foldl (λ w varlist, SelectedWindow.add varlist w)
              SelectedWindow.__init__
              [[("Diagnosis", "flu"); ("Diagnosis", "cold")];
               [("Diagnosis", "cold"); ("Symptom", "fever")]])).
Proof.
  apply (adds_keep_distinct
           [[("Diagnosis", "flu"); ("Diagnosis", "cold")];
            [("Diagnosis", "cold"); ("Symptom", "fever")]]
           SelectedWindow.__init__).
  - apply NoDup_nil_2.
  - apply (bool_decide_unpack _). vm_compute. exact I.
Defined.

(** X2 on a list of two entries, the second highlighted. *)
Lemma add_present_is_noop_witness :
  let w := {| SelectedWindow.listbox :=
                [(("Diagnosis", "flu"), false); (("Diagnosis", "cold"), true)] |} in
  SelectedWindow.add [("Diagnosis", "cold"); ("Diagnosis", "cold")] w = w.
Proof.
  intros w.
  apply (add_present_is_noop [("Diagnosis", "cold"); ("Diagnosis", "cold")] w).
  apply (bool_decide_unpack _). vm_compute. exact I.
Defined.

(** ** SelectedWindow.remove *)

Section SelectedWindowRemoveMore.
Context {A : Type}.
Implicit Types (lb : Listbox.t A) (w : SelectedWindow.t A).

Lemma highlighted_from_length k lb :
  length (Listbox.highlighted_from k lb) = length (filter (λ r, r.2 = true) lb).
Proof.
  revert k. induction lb as [|[x b] lb IH]; intros k; [done |].
  destruct b.
  - rewrite filter_cons_True by done. simpl. by rewrite IH.
  - rewrite filter_cons_False by done. apply IH.
Qed.

Lemma highlight_partition_length lb :
  length (filter (λ r, r.2 = false) lb) + length (filter (λ r, r.2 = true) lb)
  = length lb.
Proof.
  induction lb as [|[x b] lb IH]; [done |].
  destruct b.
  - rewrite filter_cons_False, filter_cons_True by done. simpl. lia.
  - rewrite filter_cons_True, filter_cons_False by done. simpl. lia.
Qed.

Lemma remove_sublist w :
  SelectedWindow.get_displayed (SelectedWindow.remove w)
  `sublist_of` SelectedWindow.get_displayed w.
Proof.
  unfold SelectedWindow.get_displayed, Listbox.get_all.
  rewrite remove_listbox. apply fmap_sublist, sublist_filter.
Qed.

(** X4: [remove] shortens the list by the number of highlighted rows,
    what it leaves was displayed before in the same order, and a second
    [remove] right after the first changes nothing. *)
Theorem remove_counts w :
  length (SelectedWindow.get_displayed (SelectedWindow.remove w))
    + length (Listbox.curselection (SelectedWindow.listbox w))
  = length (SelectedWindow.get_displayed w)
  ∧ SelectedWindow.get_displayed (SelectedWindow.remove w)
    `sublist_of` SelectedWindow.get_displayed w
  ∧ SelectedWindow.remove (SelectedWindow.remove w) = SelectedWindow.remove w.
Proof.
  split_and!.
  - unfold SelectedWindow.get_displayed, Listbox.get_all, Listbox.curselection.
    rewrite remove_listbox, !length_fmap, highlighted_from_length.
    apply highlight_partition_length.
  - apply remove_sublist.
  - pose proof (unhighlighted_curselection 0 (SelectedWindow.listbox w)) as Hnone.
    rewrite <-remove_listbox in Hnone.
    unfold SelectedWindow.remove at 1. unfold Listbox.curselection.
    rewrite Hnone. by destruct (SelectedWindow.remove w).
Qed.
End SelectedWindowRemoveMore.

(** ** VarWindow.get_selected and the highlight after a rebuild *)

Section GetSelected.
Context {A : Type}.
Implicit Types (lb pre : Listbox.t A).

(** The loop of [get_selected] over the indices of the highlighted rows
    of [lb], which stands below the rows [pre]. *)
Lemma get_selected_loop (d : A) pre lb (acc : list A) :
  foldl (λ selected i, selected ++ [default d (Listbox.get i (pre ++ lb))])
        acc (Listbox.highlighted_from (length pre) lb)
  = acc ++ Listbox.get_all (filter (λ r, r.2 = true) lb).
Proof.
  revert pre acc. induction lb as [|[x b] lb IH]; intros pre acc.
  - simpl. by rewrite app_nil_r.
  - assert (pre ++ (x, b) :: lb = (pre ++ [(x, b)]) ++ lb) as Hsplit
      by by rewrite <-app_assoc.
    assert (S (length pre) = length (pre ++ [(x, b)])) as Hlen
      by (rewrite length_app; simpl; lia).
    destruct b; cbn [Listbox.highlighted_from].
    + rewrite filter_cons_True by done. cbn [foldl].
      assert (Listbox.get (length pre) (pre ++ (x, true) :: lb) = Some x) as ->.
      { unfold Listbox.get. rewrite fmap_app, fmap_cons.
        apply list_lookup_middle. by rewrite length_fmap. }
      rewrite Hsplit, Hlen, IH. unfold Listbox.get_all. simpl.
      by rewrite <-app_assoc.
    + rewrite filter_cons_False by done. rewrite Hsplit, Hlen. apply IH.
Qed.

Lemma highlighted_rows_fresh (l : list A) :
  filter (λ r : A * bool, r.2 = true) (Listbox.row <$> l) = [].
Proof. induction l as [|x l IH]; [done |]. simpl. by rewrite filter_cons_False. Qed.
End GetSelected.

Section VarWindowMore.
Variable lower : string → string.
Implicit Types (c : Condition) (w : VarWindow.t) (s : string).

Lemma get_selected_rows w :
  VarWindow.get_selected w
  = Listbox.get_all (filter (λ r, r.2 = true) (VarWindow.listbox w)).
Proof.
  unfold VarWindow.get_selected, Listbox.curselection.
  apply (get_selected_loop "" [] (VarWindow.listbox w) []).
Qed.

(** X5: [get_selected] returns the items of the highlighted rows, from
    top to bottom: as many as [curselection] lists, and a part of what is
    displayed in the order displayed. *)
Theorem get_selected_highlighted w :
  VarWindow.get_selected w
  = Listbox.get_all (filter (λ r, r.2 = true) (VarWindow.listbox w))
  ∧ length (VarWindow.get_selected w)
    = length (Listbox.curselection (VarWindow.listbox w))
  ∧ VarWindow.get_selected w `sublist_of` VarWindow.displayed w.
Proof.
  rewrite get_selected_rows. split_and!; [done | |].
  - unfold Listbox.get_all, Listbox.curselection.
    by rewrite length_fmap, highlighted_from_length.
  - apply fmap_sublist, sublist_filter.
Qed.

Lemma build_box_listbox c w :
  VarWindow.listbox (VarWindow.build_box c w) = Listbox.row <$> array c.
Proof.
  unfold VarWindow.build_box. simpl.
  rewrite insert_range_loop by (simpl; lia).
  by rewrite drop_0, take_ge by lia.
Qed.

Lemma filter_listbox s w :
  VarWindow.listbox (VarWindow.filter lower s w)
  = Listbox.row <$> filter (λ v, Py.occurs_in (lower s) (lower v))
                      (array (VarWindow.condition w)).
Proof.
  unfold VarWindow.filter. simpl.
  rewrite (insert_loop _ (λ v, Py.occurs_in (lower s) (lower v))); [done |].
  intros v. apply str_in_occurs_in.
Qed.

Lemma filter_get_selected s w :
  VarWindow.get_selected (VarWindow.filter lower s w) = [].
Proof.
  by rewrite get_selected_rows, filter_listbox, highlighted_rows_fresh.
Qed.

Lemma build_box_get_selected c w :
  VarWindow.get_selected (VarWindow.build_box c w) = [].
Proof.
  by rewrite get_selected_rows, build_box_listbox, highlighted_rows_fresh.
Qed.

(** X6: [build_box] and [filter] leave no row highlighted, whatever was
    highlighted before: [get_selected] then returns the empty list. *)
Theorem rebuild_clears_highlight c s w :
  VarWindow.get_selected (VarWindow.build_box c w) = []
  ∧ VarWindow.get_selected (VarWindow.filter lower s w) = []
  ∧ Listbox.curselection (VarWindow.listbox (VarWindow.build_box c w)) = []
  ∧ Listbox.curselection (VarWindow.listbox (VarWindow.filter lower s w)) = [].
Proof.
  assert (∀ l : list string, Listbox.curselection (Listbox.row <$> l) = []) as Hnone.
  { intros l. apply length_zero_iff_nil. unfold Listbox.curselection.
    by rewrite highlighted_from_length, highlighted_rows_fresh. }
  rewrite !get_selected_rows, build_box_listbox, filter_listbox.
  rewrite !highlighted_rows_fresh, !Hnone. done.
Qed.

Lemma str_app_assoc (x y z : string) : (x +:+ y) +:+ z = x +:+ (y +:+ z).
Proof.
  induction x as [|a x IH]; [done |].
  change (String a ((x +:+ y) +:+ z) = String a (x +:+ (y +:+ z))).
  by rewrite IH.
Qed.

Lemma occurs_in_trans (a b c' : string) :
  Py.occurs_in a b → Py.occurs_in b c' → Py.occurs_in a c'.
Proof.
  intros (p & q & ->) (p' & q' & ->).
  exists (p' +:+ p), (q +:+ q').
  by rewrite !str_app_assoc.
Qed.

(** X7: a filter text whose lowercase contains the lowercase of another
    shows a part of what the other shows, namely what it keeps of it:
    making the text longer never brings an item back. *)
Theorem filter_narrows s1 s2 w :
  Py.occurs_in (lower s1) (lower s2) →
  VarWindow.displayed (VarWindow.filter lower s2 w)
  = filter (λ v, Py.occurs_in (lower s2) (lower v))
      (VarWindow.displayed (VarWindow.filter lower s1 w))
  ∧ VarWindow.displayed (VarWindow.filter lower s2 w)
    `sublist_of` VarWindow.displayed (VarWindow.filter lower s1 w).
Proof.
  intros Hs.
  assert (VarWindow.displayed (VarWindow.filter lower s2 w)
          = filter (λ v, Py.occurs_in (lower s2) (lower v))
              (VarWindow.displayed (VarWindow.filter lower s1 w))) as Heq.
  { rewrite !filter_displayed. symmetry. apply list_filter_filter_l.
    intros v Hv. by apply (occurs_in_trans _ (lower s2)). }
  split; [done |]. rewrite Heq. apply sublist_filter.
Qed.
End VarWindowMore.

(** X7 with the ASCII lowercase: the texts "co" and "COV" on Diagnosis. *)
Lemma filter_narrows_witness :
  let w := VarWindow.__init__ diagnosis in
  VarWindow.displayed (VarWindow.filter Py.ascii_lower "COV" w)
  = filter (λ v, Py.occurs_in (Py.ascii_lower "COV") (Py.ascii_lower v))
      (VarWindow.displayed (VarWindow.filter Py.ascii_lower "co" w))
  ∧ VarWindow.displayed (VarWindow.filter Py.ascii_lower "COV" w)
    `sublist_of` VarWindow.displayed (VarWindow.filter Py.ascii_lower "co" w).
Proof.
  intros w. apply (filter_narrows Py.ascii_lower "co" "COV" w).
  by exists "", "v".
Defined.

(** ** The wiring of the selector panel *)

(** Whether a gesture is a press of Remove. *)
Definition is_remove_pressed (e : VarSelector.event) : bool :=
  match e with
  | VarSelector.RemovePressed => true
  | _ => false
  end.

Lemma foldl_snoc_fmap {A B} (f : A → B) (l : list A) (acc : list B) :
  foldl (λ acc i, acc ++ [f i]) acc l = acc ++ (f <$> l).
Proof.
  revert acc. induction l as [|x l IH]; intros acc; simpl.
  - by rewrite app_nil_r.
  - by rewrite IH, <-app_assoc.
Qed.

Section VarSelectorMore.
Variable lower : string → string.
Variable condition_dict : gmap string Condition.
Variable defaultCondition : Condition.
Implicit Types (w : VarSelector.t) (e : VarSelector.event) (f : callback).

Abbreviation step' := (VarSelector.step lower condition_dict).
Abbreviation run' := (VarSelector.run lower condition_dict).
Abbreviation call' := (VarSelector.call lower condition_dict).
Abbreviation reachable' :=
  (VarSelector.reachable lower condition_dict defaultCondition).
Abbreviation items' w := (VarWindow.displayed (VarSelector._var_window w)).
Abbreviation entries w := (VarSelector.get_selected w).

(** A callback rewrites the item list at most. *)
Lemma call_rest f w :
  VarSelector._selected_window (call' f w) = VarSelector._selected_window w
  ∧ VarSelector._filter (call' f w) = VarSelector._filter w
  ∧ VarSelector._date_entry (call' f w) = VarSelector._date_entry w.
Proof.
  destruct f; simpl; [| done].
  unfold VarSelector._condition_trace.
  by destruct (ConditionSelect.get_condition _ _).
Qed.

Lemma calls_rest fs w :
  VarSelector._selected_window (foldl (λ w f, call' f w) w fs)
  = VarSelector._selected_window w
  ∧ VarSelector._filter (foldl (λ w f, call' f w) w fs) = VarSelector._filter w
  ∧ VarSelector._date_entry (foldl (λ w f, call' f w) w fs)
    = VarSelector._date_entry w.
Proof.
  revert w. induction fs as [|f fs IH]; intros w; [done |].
  simpl. destruct (IH (call' f w)) as (-> & -> & ->). apply call_rest.
Qed.

Lemma step_traces w e :
  Filter._traces (VarSelector._filter (step' w e))
  = Filter._traces (VarSelector._filter w).
Proof.
  destruct e as [n|s|sel|sel| | |s|s]; simpl; try done.
  - destruct (ConditionSelect.tracefunc _); [| done].
    by destruct (call_rest c (VarSelector.set_condition_selector
      (ConditionSelect.set n (VarSelector._condition_selector w)) w)) as (_ & -> & _).
  - by destruct (calls_rest (Filter._traces (VarSelector._filter w))
      (VarSelector.set_filter
         {| Filter._filter := s;
            Filter._traces := Filter._traces (VarSelector._filter w) |} w))
      as (_ & -> & _).
Qed.

(** The filter text stays traced by [_filter_trace], and by nothing
    else. *)
Lemma reachable_traces w :
  reachable' w → Filter._traces (VarSelector._filter w) = [filter_trace].
Proof.
  induction 1 as [|w e _ IH]; [done |]. by rewrite step_traces.
Qed.

(** X8: in a state the panel reaches, a change of the filter text to [s]
    makes the item list show the items of the condition it holds whose
    lowercase contains the lowercase of [s]; the condition held, the menu
    button and the selected entries stay, and [s] is the filter text. *)
Theorem filter_write_refilters w s :
  reachable' w →
  items' (step' w (VarSelector.FilterWrite s))
  = filter (λ v, Py.occurs_in (lower s) (lower v))
      (array (VarWindow.condition (VarSelector._var_window w)))
  ∧ VarWindow.condition (VarSelector._var_window (step' w (VarSelector.FilterWrite s)))
    = VarWindow.condition (VarSelector._var_window w)
  ∧ Filter.get_filter (VarSelector._filter (step' w (VarSelector.FilterWrite s))) = s
  ∧ VarSelector._condition_selector (step' w (VarSelector.FilterWrite s))
    = VarSelector._condition_selector w
  ∧ VarSelector._selected_window (step' w (VarSelector.FilterWrite s))
    = VarSelector._selected_window w.
Proof.
  intros Hw. simpl. rewrite (reachable_traces w Hw). simpl.
  split_and!; try done. apply filter_displayed.
Qed.

(** X9: in a state the panel reaches, Add pressed right after a change of
    the filter text adds nothing: the change leaves no item highlighted. *)
Theorem add_after_filter_write w s :
  reachable' w →
  VarSelector.add (step' w (VarSelector.FilterWrite s))
  = step' w (VarSelector.FilterWrite s).
Proof.
  intros Hw. simpl. rewrite (reachable_traces w Hw). simpl.
  unfold VarSelector.add, VarSelector._filter_trace. simpl.
  rewrite filter_get_selected.
  simpl. unfold VarSelector.set_selected_window, VarSelector.set_var_window. simpl.
  f_equal. unfold SelectedWindow.add. simpl.
  by destruct (VarSelector._selected_window w).
Qed.

(** X10: [_condition_trace] raises its KeyError exactly when the name the
    menu button shows is not a key of [condition_dict]; otherwise the
    item list holds the condition under that key and shows its whole
    array, with no row highlighted, and the rest of the panel is as it
    was. *)
Theorem condition_trace_outcome w :
  match VarSelector._condition_trace condition_dict w with
  | None =>
      condition_dict !! ConditionSelect.get (VarSelector._condition_selector w) = None
  | Some w' =>
      condition_dict !! ConditionSelect.get (VarSelector._condition_selector w)
      = Some (VarWindow.condition (VarSelector._var_window w'))
      ∧ items' w' = array (VarWindow.condition (VarSelector._var_window w'))
      ∧ VarWindow.get_selected (VarSelector._var_window w') = []
      ∧ VarSelector._condition_selector w' = VarSelector._condition_selector w
      ∧ VarSelector._selected_window w' = VarSelector._selected_window w
      ∧ VarSelector._filter w' = VarSelector._filter w
      ∧ VarSelector._date_entry w' = VarSelector._date_entry w
  end.
Proof.
  unfold VarSelector._condition_trace, ConditionSelect.get_condition.
  destruct (condition_dict !! _) as [c|] eqn:Hc; simpl; [| done].
  split_and!; try done.
  - apply build_box_displayed.
  - apply build_box_get_selected.
Qed.

Lemma panel_add_entries w :
  entries (VarSelector.add w)
  = entries w
    ++ filter (λ v, v ∉ entries w)
         ((λ i, (ConditionSelect.get (VarSelector._condition_selector w), i))
            <$> VarWindow.get_selected (VarSelector._var_window w)).
Proof.
  unfold VarSelector.get_selected, VarSelector.add. simpl.
  by rewrite add_displayed, foldl_snoc_fmap.
Qed.

(** X11: Add puts after the entries selected so far the highlighted items
    of the item list, from top to bottom, each paired with the name the
    menu button shows, leaving out the pairs selected already; the rest
    of the panel is as it was. *)
Theorem panel_add w :
  entries (VarSelector.add w)
  = entries w
    ++ filter (λ v, v ∉ entries w)
         ((λ i, (ConditionSelect.get (VarSelector._condition_selector w), i))
            <$> Listbox.get_all
                  (filter (λ r, r.2 = true)
                     (VarWindow.listbox (VarSelector._var_window w))))
  ∧ VarSelector._var_window (VarSelector.add w) = VarSelector._var_window w
  ∧ VarSelector._condition_selector (VarSelector.add w)
    = VarSelector._condition_selector w
  ∧ VarSelector._filter (VarSelector.add w) = VarSelector._filter w
  ∧ VarSelector._date_entry (VarSelector.add w) = VarSelector._date_entry w.
Proof.
  split_and!; try done. by rewrite panel_add_entries, get_selected_rows.
Qed.

Lemma step_entries_prefix w e :
  is_remove_pressed e = false → entries w `prefix_of` entries (step' w e).
Proof.
  destruct e as [n|s|sel|sel| | |s|s]; try done; intros _; simpl.
  - destruct (ConditionSelect.tracefunc _); [| done].
    unfold VarSelector.get_selected.
    by destruct (call_rest c (VarSelector.set_condition_selector
      (ConditionSelect.set n (VarSelector._condition_selector w)) w)) as (-> & _).
  - unfold VarSelector.get_selected.
    by destruct (calls_rest (Filter._traces (VarSelector._filter w))
      (VarSelector.set_filter
         {| Filter._filter := s;
            Filter._traces := Filter._traces (VarSelector._filter w) |} w))
      as (-> & _).
  - unfold VarSelector.get_selected, SelectedWindow.get_displayed. simpl.
    by rewrite get_all_highlight.
  - rewrite panel_add_entries. by apply prefix_app_r.
Qed.

(** X12: entries leave the selected list through Remove only: over any
    gestures without a press of Remove, the entries selected at the start
    stay at the head of the list, in their order. *)
Theorem entries_stay_without_remove w es :
  Forall (λ e, is_remove_pressed e = false) es →
  entries w `prefix_of` entries (run' w es).
Proof.
  intros Hes. revert w. induction Hes as [|e es He _ IH]; intros w; [done |].
  unfold VarSelector.run in *. simpl.
  etrans; [by apply step_entries_prefix | apply IH].
Qed.

(** The item list shows a part of the array of the condition it holds. *)
Definition items_within w : Prop :=
  items' w `sublist_of` array (VarWindow.condition (VarSelector._var_window w)).

Lemma call_items_within f w : items_within w → items_within (call' f w).
Proof.
  unfold items_within. intros Hw. destruct f; simpl.
  - unfold VarSelector._condition_trace.
    destruct (ConditionSelect.get_condition _ _) as [c|]; simpl; [| done].
    by rewrite build_box_displayed.
  - rewrite filter_displayed. apply sublist_filter.
Qed.

Lemma calls_items_within fs w :
  items_within w → items_within (foldl (λ w f, call' f w) w fs).
Proof.
  revert w. induction fs as [|f fs IH]; intros w Hw; [done |].
  simpl. by apply IH, call_items_within.
Qed.

Lemma step_items_within w e : items_within w → items_within (step' w e).
Proof.
  intros Hw. destruct e as [n|s|sel|sel| | |s|s]; simpl; try done.
  - destruct (ConditionSelect.tracefunc _); [| done].
    by apply call_items_within.
  - by apply calls_items_within.
  - unfold items_within, VarWindow.displayed in *. simpl.
    by rewrite get_all_highlight.
Qed.

(** X13: in every state the panel reaches, the item list shows items of
    the condition it holds, in the order of that condition's array, and
    what [get_selected] returns is among them. *)
Theorem items_of_held_condition w :
  reachable' w →
  items' w `sublist_of` array (VarWindow.condition (VarSelector._var_window w))
  ∧ VarWindow.get_selected (VarSelector._var_window w)
    `sublist_of` array (VarWindow.condition (VarSelector._var_window w)).
Proof.
  intros Hw.
  assert (items_within w) as Hin.
  { induction Hw as [|w e _ IH]; [| by apply step_items_within].
    unfold items_within, VarSelector.__init__, VarWindow.__init__. simpl.
    by rewrite build_box_displayed. }
  split; [done |]. etrans; [| apply Hin].
  rewrite get_selected_rows. apply fmap_sublist, sublist_filter.
Qed.

(** Every key of [condition_dict] is the name of the condition under
    it. *)
Definition catalog_ok : Prop :=
  ∀ k c, condition_dict !! k = Some c → name c = k.

(** A condition of the catalog: the default one, or one that
    [condition_dict] holds under its name. *)
Definition known (c : Condition) : Prop :=
  c = defaultCondition ∨ condition_dict !! name c = Some c.

(** An entry pairs the name of a condition of the catalog with an item
    of that condition's array. *)
Definition entry_ok (v : string * string) : Prop :=
  ∃ c, known c ∧ name c = v.1 ∧ v.2 ∈ array c.

(** A pick is of a key of [condition_dict]. *)
Definition pick_known e : Prop :=
  ∀ n, e = VarSelector.MenuCommand n → is_Some (condition_dict !! n).

(** What the panel keeps between two gestures: the wiring of the menu,
    the name on the menu button being that of the condition the item
    list holds, and entries that name catalog items. *)
Definition in_step w : Prop :=
  ConditionSelect.tracefunc (VarSelector._condition_selector w) = Some condition_trace
  ∧ known (VarWindow.condition (VarSelector._var_window w))
  ∧ ConditionSelect.get (VarSelector._condition_selector w)
    = name (VarWindow.condition (VarSelector._var_window w))
  ∧ items_within w
  ∧ Forall entry_ok (entries w).

Lemma call_in_step f w : catalog_ok → in_step w → in_step (call' f w).
Proof.
  intros Hcat (Ht & Hk & Hn & Hi & He). destruct f; simpl.
  - unfold VarSelector._condition_trace, ConditionSelect.get_condition.
    destruct (condition_dict !! _) as [c|] eqn:Hc; simpl; [| done].
    pose proof (Hcat _ _ Hc) as Hname.
    split_and!; [done | | done | | done].
    + right. simpl. by rewrite Hname.
    + unfold items_within. simpl. by rewrite build_box_displayed.
  - split_and!; try done. by apply (call_items_within filter_trace).
Qed.

Lemma calls_in_step fs w :
  catalog_ok → in_step w → in_step (foldl (λ w f, call' f w) w fs).
Proof.
  intros Hcat. revert w. induction fs as [|f fs IH]; intros w Hw; [done |].
  simpl. by apply IH, call_in_step.
Qed.

Lemma step_in_step w e :
  catalog_ok → pick_known e → in_step w → in_step (step' w e).
Proof.
  intros Hcat Hpick Hw. pose proof Hw as (Ht & Hk & Hn & Hi & He).
  destruct e as [n|s|sel|sel| | |s|s]; simpl.
  - rewrite Ht. simpl.
    unfold VarSelector._condition_trace, ConditionSelect.get_condition. simpl.
    destruct (Hpick n eq_refl) as [c Hc]. rewrite Hc. simpl.
    pose proof (Hcat _ _ Hc) as Hname.
    split_and!; [done | | done | | done].
    + right. simpl. by rewrite Hname.
    + unfold items_within. simpl. by rewrite build_box_displayed.
  - apply calls_in_step; [done |]. by split_and!.
  - split_and!; try done.
    by apply (step_items_within w (VarSelector.HighlightItems sel)).
  - split_and!; try done.
    unfold VarSelector.get_selected, SelectedWindow.get_displayed in *. simpl.
    by rewrite get_all_highlight.
  - split_and!; try done. rewrite panel_add_entries.
    apply Forall_app. split; [done |].
    apply Forall_forall. intros v [_ Hv]%list_elem_of_filter.
    apply list_elem_of_fmap in Hv as (i & -> & Hi').
    exists (VarWindow.condition (VarSelector._var_window w)).
    split_and!; [done | done |]. simpl.
    apply (elem_of_sublist _ _ _ Hi') .
    etrans; [| apply Hi].
    rewrite get_selected_rows. apply fmap_sublist, sublist_filter.
  - split_and!; try done.
    apply Forall_forall. intros v Hv.
    rewrite Forall_forall in He. apply He.
    apply (elem_of_sublist _ _ _ Hv), remove_sublist.
  - by split_and!.
  - by split_and!.
Qed.

(** X14: when every key of [condition_dict] is the name of the condition
    under it, then after any gestures whose picks are of keys of
    [condition_dict] the menu button shows the name of the condition the
    item list holds, and every selected entry pairs the name of a
    condition of the catalog with an item of that condition. *)
Theorem entries_name_catalog_items es :
  catalog_ok →
  Forall pick_known es →
  Forall entry_ok (entries (run' (VarSelector.__init__ defaultCondition) es))
  ∧ ConditionSelect.get
      (VarSelector._condition_selector
         (run' (VarSelector.__init__ defaultCondition) es))
    = name (VarWindow.condition
              (VarSelector._var_window
                 (run' (VarSelector.__init__ defaultCondition) es))).
Proof.
  intros Hcat Hes.
  assert (in_step (VarSelector.__init__ defaultCondition)) as Hinit.
  { split_and!; [done | by left | done | | constructor].
    unfold items_within, VarSelector.__init__, VarWindow.__init__. simpl.
    by rewrite build_box_displayed. }
  revert Hinit. generalize (VarSelector.__init__ defaultCondition).
  induction Hes as [|e es He _ IH]; intros w Hw.
  - by destruct Hw as (_ & _ & Hn & _ & Hent).
  - unfold VarSelector.run in *. simpl. by apply IH, step_in_step.
Qed.
End VarSelectorMore.

(** X8 on the panel after a pick of Symptom, with the text "OU". *)
Lemma filter_write_refilters_witness :
  let w :=
    VarSelector.step Py.ascii_lower two_conditions
      (VarSelector.__init__ diagnosis) (VarSelector.MenuCommand "Symptom") in
  let w' := VarSelector.step Py.ascii_lower two_conditions w (VarSelector.FilterWrite "OU") in
  VarWindow.displayed (VarSelector._var_window w')
  = filter (λ v, Py.occurs_in (Py.ascii_lower "OU") (Py.ascii_lower v))
      (array (VarWindow.condition (VarSelector._var_window w)))
  ∧ VarWindow.condition (VarSelector._var_window w')
    = VarWindow.condition (VarSelector._var_window w)
  ∧ Filter.get_filter (VarSelector._filter w') = "OU"
  ∧ VarSelector._condition_selector w' = VarSelector._condition_selector w
  ∧ VarSelector._selected_window w' = VarSelector._selected_window w.
Proof.
  intros w w'.
  apply (filter_write_refilters Py.ascii_lower two_conditions diagnosis w "OU").
  apply VarSelector.reachable_step, VarSelector.reachable_init.
Defined.

(** X9 on the panel with two items highlighted before the text "co" is
    typed. *)
Lemma add_after_filter_write_witness :
  let w :=
    VarSelector.step Py.ascii_lower two_conditions
      (VarSelector.__init__ diagnosis) (VarSelector.HighlightItems [0; 1]) in
  VarSelector.add (VarSelector.step Py.ascii_lower two_conditions w (VarSelector.FilterWrite "co"))
  = VarSelector.step Py.ascii_lower two_conditions w (VarSelector.FilterWrite "co").
Proof.
  intros w.
  apply (add_after_filter_write Py.ascii_lower two_conditions diagnosis w "co").
  apply VarSelector.reachable_step, VarSelector.reachable_init.
Defined.

(** X12 from a list of one entry, over a filter change, an Add and a
    pick. *)
Lemma entries_stay_without_remove_witness :
  let w :=
    VarSelector.run Py.ascii_lower two_conditions (VarSelector.__init__ diagnosis)
      [VarSelector.HighlightItems [2]; VarSelector.AddPressed] in
  let es :=
    [VarSelector.FilterWrite "f"; VarSelector.HighlightItems [0];
     VarSelector.AddPressed; VarSelector.MenuCommand "Symptom";
     VarSelector.HighlightSelected [0]] in
  VarSelector.get_selected w
  `prefix_of` VarSelector.get_selected (VarSelector.run Py.ascii_lower two_conditions w es).
Proof.
  intros w es.
  apply (entries_stay_without_remove Py.ascii_lower two_conditions w es).
  repeat constructor.
Defined.

(** X13 on the panel after the text "co" and a highlight. *)
Lemma items_of_held_condition_witness :
  let w :=
    VarSelector.step Py.ascii_lower two_conditions
      (VarSelector.step Py.ascii_lower two_conditions
         (VarSelector.__init__ diagnosis) (VarSelector.FilterWrite "co"))
      (VarSelector.HighlightItems [1]) in
  VarWindow.displayed (VarSelector._var_window w)
  `sublist_of` array (VarWindow.condition (VarSelector._var_window w))
  ∧ VarWindow.get_selected (VarSelector._var_window w)
    `sublist_of` array (VarWindow.condition (VarSelector._var_window w)).
Proof.
  intros w.
  apply (items_of_held_condition Py.ascii_lower two_conditions diagnosis w).
  do 2 apply VarSelector.reachable_step. apply VarSelector.reachable_init.
Defined.

Lemma two_conditions_ok : catalog_ok two_conditions.
Proof.
  intros k c. unfold two_conditions.
  intros [[<- <-]|[_ Hc]]%lookup_insert_Some; [done |].
  apply lookup_insert_Some in Hc as [[<- <-]|[_ Hc]]; [done |].
  by rewrite lookup_empty in Hc.
Qed.

(** X14 on the catalog of two conditions, with items of both added. *)
Lemma entries_name_catalog_items_witness :
  let es :=
    [VarSelector.FilterWrite "co"; VarSelector.HighlightItems [0; 1];
     VarSelector.AddPressed; VarSelector.MenuCommand "Symptom";
     VarSelector.HighlightItems [1]; VarSelector.AddPressed] in
  let w :=
    VarSelector.run Py.ascii_lower two_conditions (VarSelector.__init__ diagnosis) es in
  Forall (entry_ok two_conditions diagnosis) (VarSelector.get_selected w)
  ∧ ConditionSelect.get (VarSelector._condition_selector w)
    = name (VarWindow.condition (VarSelector._var_window w)).
Proof.
  intros es w.
  apply (entries_name_catalog_items Py.ascii_lower two_conditions diagnosis es).
  - apply two_conditions_ok.
  - repeat constructor; intros n [= <-] || (intros n; discriminate).
    by exists symptom.
Defined.

(** ** The applet: the count shown and the effects of a run *)

(** Whether a gesture on the applet is a press of Open. *)
Definition is_open_pressed (e : NumOfCases.event) : bool :=
  match e with
  | NumOfCases.OpenPressed => true
  | _ => false
  end.

Section NumOfCasesMore.
Variable lower : string → string.
Variable condition_dict : gmap string Condition.
Variable defaultCondition : Condition.
Variable Timestamp : Type.
Variable to_datetime : string → option Timestamp.
Variable DataFrame : Type.
Variable shape0 : DataFrame → nat.
Variable filter_cases :
  list (string * string) → option Timestamp * option Timestamp → option DataFrame.
Implicit Types (w : NumOfCases.t DataFrame) (e : NumOfCases.event).

Abbreviation astep :=
  (NumOfCases.step lower condition_dict Timestamp to_datetime DataFrame shape0
     filter_cases).
Abbreviation arun :=
  (NumOfCases.run lower condition_dict Timestamp to_datetime DataFrame shape0
     filter_cases).
Abbreviation ainit := (NumOfCases.__init__ defaultCondition DataFrame).

(** What [_open] does with the result [df]: the file is written, then
    opened. *)
Definition export (df : DataFrame) : list (NumOfCases.io DataFrame) :=
  [NumOfCases.to_csv DataFrame df "compiled cases.csv";
   NumOfCases.wb_open DataFrame "compiled cases.csv"].

Lemma arun_snoc w es e :
  arun w (es ++ [e])
  = ((astep (arun w es).1 e).1, (arun w es).2 ++ (astep (arun w es).1 e).2).
Proof.
  apply (run_snoc lower condition_dict Timestamp to_datetime DataFrame shape0
           filter_cases).
Qed.

Lemma step_count w e :
  NumOfCases._num_variable DataFrame w
  = shape0 <$> NumOfCases._compiled_cases DataFrame w →
  NumOfCases._num_variable DataFrame (astep w e).1
  = shape0 <$> NumOfCases._compiled_cases DataFrame (astep w e).1.
Proof.
  intros Hw. destruct e; simpl; [done | |].
  - unfold NumOfCases._compile. by destruct (filter_cases _ _).
  - assert ((NumOfCases._open DataFrame w).1 = w) as ->; [| done].
    unfold NumOfCases._open.
    by destruct (NumOfCases._compiled_cases DataFrame w).
Qed.

(** X15: after any gestures on the applet the count shown is the number
    of rows of the result stored, and it is the initial placeholder
    exactly when no result is stored. *)
Theorem count_is_rows_of_result es :
  let w :=
    (NumOfCases.run lower condition_dict Timestamp to_datetime DataFrame shape0
       filter_cases (NumOfCases.__init__ defaultCondition DataFrame) es).1 in
  NumOfCases._num_variable DataFrame w
  = shape0 <$> NumOfCases._compiled_cases DataFrame w.
Proof.
  cbv zeta.
  induction es as [|e es IH] using rev_ind; [done |].
  rewrite arun_snoc. cbn [fst]. by apply step_count.
Qed.

Lemma step_effects w e :
  (astep w e).2 = []
  ∨ e = NumOfCases.OpenPressed
    ∧ ∃ df, NumOfCases._compiled_cases DataFrame w = Some df
            ∧ (astep w e).2 = export df.
Proof.
  destruct e; simpl; [by left | by left |].
  unfold NumOfCases._open.
  destruct (NumOfCases._compiled_cases DataFrame w) as [df|]; [| by left].
  right. split; [done |]. by exists df.
Qed.

(** X16: all that a run of the applet does to the world is, for some
    results in turn, to write the result to "compiled cases.csv" and then
    to have that file opened, at most once for each press of Open. *)
Theorem effects_are_exports w es :
  ∃ dfs, (arun w es).2 = mjoin (export <$> dfs)
         ∧ length dfs ≤ length (filter (λ e, is_open_pressed e = true) es).
Proof.
  induction es as [|e es (dfs & IH & Hlen)] using rev_ind.
  - by exists [].
  - rewrite arun_snoc, filter_app, length_app. cbn [snd].
    destruct (step_effects (arun w es).1 e) as [->|(-> & df & _ & ->)].
    + exists dfs. rewrite app_nil_r. split; [done | lia].
    + exists (dfs ++ [df]). rewrite IH, fmap_app, join_app, length_app.
      split; [done |]. simpl. lia.
Qed.

(** X17: when [filter_cases] answers [df] for the entries selected and
    the date range entered, Compile followed by Open stores [df], shows
    its number of rows, and writes and opens [df]; the selector panel is
    not touched. *)
Theorem compile_then_open w df :
  filter_cases
    (VarSelector.get_selected (NumOfCases._var_selector DataFrame w))
    (DateEntry.get_daterange Timestamp to_datetime
       (VarSelector._date_entry (NumOfCases._var_selector DataFrame w)))
  = Some df →
  arun w [NumOfCases.CompilePressed; NumOfCases.OpenPressed]
  = ({| NumOfCases._var_selector := NumOfCases._var_selector DataFrame w;
        NumOfCases._num_variable := Some (shape0 df);
        NumOfCases._compiled_cases := Some df |},
     export df).
Proof.
  intros Hdf. unfold NumOfCases.run. simpl.
  unfold NumOfCases._compile. rewrite Hdf. done.
Qed.

(** X18: when [filter_cases] raises for the entries selected and the date
    range entered, Compile changes nothing: the result stored before and
    its count stay, and a later Open exports that earlier result. *)
Theorem compile_failure_keeps_result w :
  filter_cases
    (VarSelector.get_selected (NumOfCases._var_selector DataFrame w))
    (DateEntry.get_daterange Timestamp to_datetime
       (VarSelector._date_entry (NumOfCases._var_selector DataFrame w)))
  = None →
  astep w NumOfCases.CompilePressed = (w, [])
  ∧ arun w [NumOfCases.CompilePressed; NumOfCases.OpenPressed]
    = NumOfCases._open DataFrame w.
Proof.
  intros Hdf.
  assert (astep w NumOfCases.CompilePressed = (w, [])) as Hstep.
  { simpl. unfold NumOfCases._compile. by rewrite Hdf. }
  split; [done |]. unfold NumOfCases.run. cbn [foldl]. rewrite Hstep.
  simpl. by destruct (NumOfCases._open DataFrame w).
Qed.
End NumOfCasesMore.

(** X17 with a query that answers the items selected: two entries are
    added, then Compile and Open are pressed. *)
Lemma compile_then_open_witness :
  let w :=
    {| NumOfCases._var_selector :=
         VarSelector.run Py.ascii_lower two_conditions (VarSelector.__init__ diagnosis)
           [VarSelector.HighlightItems [0; 2]; VarSelector.AddPressed];
       NumOfCases._num_variable := None;
       NumOfCases._compiled_cases := None |} in
  NumOfCases.run Py.ascii_lower two_conditions string (λ _, None) (list string)
    length (λ filters _, Some (filters.*2)) w
    [NumOfCases.CompilePressed; NumOfCases.OpenPressed]
  = ({| NumOfCases._var_selector := NumOfCases._var_selector (list string) w;
        NumOfCases._num_variable := Some 2;
        NumOfCases._compiled_cases := Some ["flu"; "covid"] |},
     export (list string) ["flu"; "covid"]).
Proof.
  intros w.
  apply (compile_then_open Py.ascii_lower two_conditions string (λ _, None)
           (list string) length (λ filters _, Some (filters.*2)) w ["flu"; "covid"]).
  reflexivity.
Defined.

(** X18 with a query that raises, on a state that stores a result. *)
Lemma compile_failure_keeps_result_witness :
  let w :=
    {| NumOfCases._var_selector := VarSelector.__init__ diagnosis;
       NumOfCases._num_variable := Some 1;
       NumOfCases._compiled_cases := Some ["case 1"] |} in
  NumOfCases.step Py.ascii_lower two_conditions string (λ _, None) (list string)
    length (λ _ _, None) w NumOfCases.CompilePressed
  = (w, [])
  ∧ NumOfCases.run Py.ascii_lower two_conditions string (λ _, None) (list string)
      length (λ _ _, None) w [NumOfCases.CompilePressed; NumOfCases.OpenPressed]
    = (w, export (list string) ["case 1"]).
Proof.
  intros w.
  apply (compile_failure_keeps_result Py.ascii_lower two_conditions string
           (λ _, None) (list string) length (λ _ _, None) w).
  reflexivity.
Defined.
